(** * SkillSync: the skill normalizer, profile extractor, item classifier,
      match scorer and aggregation guard

    A shallow embedding of [server/services/aiService.js] (class [AIService])
    and of the run guard of [server/jobs/issueAggregator.js].

    Conventions of the embedding.
    - JavaScript numbers are idealised as exact rationals ([Q]); equalities
      between computed numbers are stated with [==].  Binary64 rounding is not
      modelled.
    - Strings are sequences of 8-bit characters.  [toLowerCase] and the
      case-insensitive regular expressions of the source are modelled on the
      ASCII letters, where they agree with the Unicode case mapping.
    - A [Map] or [Set] is an insertion-ordered list without duplicate keys,
      which is the order [Array.from] and [for ... of] observe.
    - A thrown exception is the [Throw] outcome of the [completion] type. *)

From Stdlib Require Import String Ascii List Bool ZArith QArith Qminmax Lia Lqa.
From Stdlib Require Import Sorted Permutation.
Import ListNotations.

Open Scope string_scope.

(** ** JavaScript primitives used by the service *)

Module Js.

Definition code (c : ascii) : nat := nat_of_ascii c.

Definition between (lo hi n : nat) : bool := Nat.leb lo n && Nat.leb n hi.

Definition lowerChar (c : ascii) : ascii :=
  if between 65 90 (code c) then ascii_of_nat (code c + 32) else c.

(** [String.prototype.toLowerCase]. *)
Fixpoint toLowerCase (s : string) : string :=
  match s with
  | EmptyString => EmptyString
  | String c t => String (lowerChar c) (toLowerCase t)
  end.

(** [s.includes(sub)]: [sub] occurs in [s] as a contiguous substring. *)
Fixpoint includes (s sub : string) : bool :=
  String.prefix sub s ||
  match s with
  | EmptyString => false
  | String _ t => includes t sub
  end.

Definition isSpace (c : ascii) : bool :=
  between 9 13 (code c) || Nat.eqb (code c) 32.

Fixpoint trimStart (s : string) : string :=
  match s with
  | EmptyString => EmptyString
  | String c t => if isSpace c then trimStart t else s
  end.

Definition reverse (s : string) : string :=
  string_of_list_ascii (rev (list_ascii_of_string s)).

Definition trimEnd (s : string) : string := reverse (trimStart (reverse s)).

(** [String.prototype.trim]. *)
Definition trim (s : string) : string := trimEnd (trimStart s).

(** [s.replace(/[^...]/g, '')] for a character class given by [keep]. *)
Fixpoint removeOutside (keep : ascii -> bool) (s : string) : string :=
  match s with
  | EmptyString => EmptyString
  | String c t =>
      if keep c then String c (removeOutside keep t) else removeOutside keep t
  end.

(** [s.split(sep).length] for a one-character separator. *)
Fixpoint splitCount (sep : ascii) (s : string) : nat :=
  match s with
  | EmptyString => 1
  | String c t => (if Ascii.eqb c sep then 1 else 0) + splitCount sep t
  end.

(** [Array.prototype.includes] on an array of strings. *)
Definition arrayIncludes (xs : list string) (x : string) : bool :=
  existsb (String.eqb x) xs.

(** [Array.prototype.indexOf] on an array of strings, [-1] when absent. *)
Fixpoint indexOf (xs : list string) (x : string) : Z :=
  match xs with
  | [] => (-1)%Z
  | y :: ys =>
      if String.eqb y x then 0%Z
      else let i := indexOf ys x in if (i <? 0)%Z then (-1)%Z else (i + 1)%Z
  end.

(** The values that reach the normalizer: [undefined], [null], strings,
    the built-in [Object] function (what every object literal inherits
    under the key ["constructor"]), and label objects [{ name }]. *)
Inductive value : Type :=
| VUndefined
| VNull
| VStr (s : string)
| VObjectFn
| VLabel (name : string).

Definition value_eqb (a b : value) : bool :=
  match a, b with
  | VUndefined, VUndefined => true
  | VNull, VNull => true
  | VStr s, VStr t => String.eqb s t
  | VObjectFn, VObjectFn => true
  | VLabel s, VLabel t => String.eqb s t
  | _, _ => false
  end.

(** ToBoolean. *)
Definition truthy (v : value) : bool :=
  match v with
  | VUndefined | VNull => false
  | VStr s => negb (String.eqb s "")
  | VObjectFn | VLabel _ => true
  end.

(** The outcome of evaluating code that may throw. *)
Inductive completion (A : Type) : Type :=
| Ok (a : A)
| Throw.
Arguments Ok {A} a.
Arguments Throw {A}.

Definition bind {A B} (m : completion A) (f : A -> completion B) : completion B :=
  match m with
  | Ok a => f a
  | Throw => Throw
  end.

(** [try { body } catch { handler }]. *)
Definition tryCatch {A} (body handler : completion A) : completion A :=
  match body with
  | Ok a => Ok a
  | Throw => handler
  end.

(** Property access [v.name]: a [TypeError] on [undefined] and [null],
    [undefined] on a string primitive. *)
Definition getName (v : value) : completion value :=
  match v with
  | VUndefined | VNull => Throw
  | VStr _ => Ok VUndefined
  | VObjectFn => Ok (VStr "Object")
  | VLabel n => Ok (VStr n)
  end.

End Js.

Import Js.

Notation "x <- m ;; k" := (bind m (fun x => k))
  (at level 61, m at next level, right associativity).

(** ** The AI service *)

Module AIService.

(** *** Skill normalizer *)

(** The character class [[a-z0-9+\-.]]. *)
Definition skillChar (c : ascii) : bool :=
  between 97 122 (code c) || between 48 57 (code c) ||
  Nat.eqb (code c) 43 || Nat.eqb (code c) 45 || Nat.eqb (code c) 46.

Definition aliases : list (string * string) :=
  [ ("js", "javascript");
    ("ts", "typescript");
    ("py", "python");
    ("nodejs", "node.js");
    ("reactjs", "react");
    ("vuejs", "vue");
    ("angularjs", "angular");
    ("csharp", "c#");
    ("cpp", "c++");
    ("py3", "python");
    ("jupyternotebook", "jupyter");
    ("postgres", "postgresql");
    ("mongo", "mongodb");
    ("tf", "tensorflow");
    ("pt", "pytorch");
    ("ghactions", "github actions");
    ("ci", "continuous integration");
    ("cd", "continuous deployment") ].

Fixpoint ownProperty (tbl : list (string * string)) (k : string) : option string :=
  match tbl with
  | [] => None
  | (k', v) :: rest => if String.eqb k' k then Some v else ownProperty rest k
  end.

(** [aliases[k]]: an own property, else what [Object.prototype] provides.
    Keys here consist of characters of [skillChar] only, so of the
    inherited properties just ["constructor"] can be reached. *)
Definition aliasesGet (k : string) : value :=
  match ownProperty aliases k with
  | Some v => VStr v
  | None => if String.eqb k "constructor" then VObjectFn else VUndefined
  end.

Definition normalizeSkillName (name : value) : value :=
  match name with
  | VStr s =>
      if String.eqb s "" then VNull
      else
        let normalized := removeOutside skillChar (trim (toLowerCase s)) in
        let a := aliasesGet normalized in
        if truthy a then a else VStr normalized
  | _ => VNull
  end.

(** *** Insertion-ordered maps *)

Section OrderedMap.
Context {K V : Type} (eqb : K -> K -> bool).

Fixpoint mapGet (m : list (K * V)) (k : K) : option V :=
  match m with
  | [] => None
  | (k', v) :: rest => if eqb k' k then Some v else mapGet rest k
  end.

(** [Map.prototype.set]: an existing key keeps its position. *)
Fixpoint mapSet (m : list (K * V)) (k : K) (v : V) : list (K * V) :=
  match m with
  | [] => [(k, v)]
  | (k', v') :: rest =>
      if eqb k' k then (k', v) :: rest else (k', v') :: mapSet rest k v
  end.

Definition mapValues (m : list (K * V)) : list V := map snd m.
End OrderedMap.

(** *** Skill merge *)

Record Skill : Type := mkSkill
  { skill_name : value;
    skill_level : string;
    skill_confidence : Q;
    skill_source : string }.

Definition SkillsMap : Type := list (value * Skill).

Definition levels : list string :=
  ["beginner"; "intermediate"; "advanced"; "expert"].

Definition addSkill (skillsMap : SkillsMap) (name : value) (level : string)
    (confidence : Q) (source : string) : SkillsMap :=
  let normalizedName := normalizeSkillName name in
  if negb (truthy normalizedName) then skillsMap
  else
    match mapGet value_eqb skillsMap normalizedName with
    | Some existing =>
        let totalWeight := existing.(skill_confidence) + confidence in
        mapSet value_eqb skillsMap normalizedName
          {| skill_name := existing.(skill_name);
             skill_level :=
               if (indexOf levels level >? indexOf levels existing.(skill_level))%Z
               then level else existing.(skill_level);
             skill_confidence := totalWeight / 2;
             skill_source := existing.(skill_source) |}
    | None =>
        mapSet value_eqb skillsMap normalizedName
          {| skill_name := normalizedName;
             skill_level := level;
             skill_confidence := confidence;
             skill_source := source |}
    end.

(** *** Profile skill extractor *)

Record LangData : Type := mkLangData
  { ld_name : string;
    ld_repoCount : Z;
    ld_totalSize : Z;
    ld_linesOfCode : Z }.

Definition LanguagesMap : Type := list (string * LangData).

Definition calculateLanguageLevel (languageData : LangData) : string :=
  let repoCount := languageData.(ld_repoCount) in
  let totalSize := languageData.(ld_totalSize) in
  if (repoCount >=? 10)%Z && (totalSize >? 10000)%Z then "expert"
  else if (repoCount >=? 5)%Z && (totalSize >? 5000)%Z then "advanced"
  else if (repoCount >=? 3)%Z && (totalSize >? 1000)%Z then "intermediate"
  else "beginner".

Definition frameworks : list string :=
  [ "react"; "vue"; "angular"; "svelte"; "nodejs"; "express"; "fastapi";
    "django"; "flask"; "rails"; "spring"; "laravel"; "symfony";
    "tensorflow"; "pytorch"; "scikit-learn"; "pandas"; "numpy";
    "docker"; "kubernetes"; "aws"; "azure"; "gcp"; "mongodb";
    "postgresql"; "mysql"; "redis"; "elasticsearch"; "graphql";
    "nextjs"; "nuxtjs"; "gatsby"; "webpack"; "vite"; "tailwindcss";
    "typescript"; "javascript"; "java"; "csharp"; "c++"; "go"; "rust";
    "php"; "ruby"; "swift"; "objective-c"; "scala"; "haskell"; "matlab";
    "jupyter"; "notebook"; "firebase"; "supabase"; "rabbitmq"; "celery";
    "airflow"; "spark"; "hadoop"; "bigquery"; "redshift"; "snowflake";
    "heroku"; "vercel"; "netlify"; "digitalocean"; "linode"; "openai";
    "huggingface"; "langchain"; "llama"; "transformers"; "grpc"; "protobuf";
    "eslint"; "prettier"; "storybook"; "jest"; "mocha"; "chai"; "cypress";
    "playwright"; "puppeteer"; "selenium"; "circleci"; "github actions";
    "travis"; "jenkins"; "ansible"; "terraform"; "pulumi"; "prometheus";
    "grafana"; "sentry"; "datadog"; "newrelic"; "rollbar"; "logrocket" ].

Definition extractFrameworksFromText (text : string) : list string :=
  let lowerText := toLowerCase text in
  filter (fun framework => includes lowerText framework) frameworks.

Definition techKeywords : list string :=
  [ "api"; "database"; "frontend"; "backend"; "ui"; "testing";
    "deployment"; "security"; "performance"; "bug"; "feature" ].

Definition extractSkillsFromCommitMessage (message : string) : list string :=
  let lowerMessage := toLowerCase message in
  filter (fun keyword => includes lowerMessage keyword) techKeywords.

Definition patterns : list (string * list string) :=
  [ ("web", ["html"; "css"; "javascript"]);
    ("api", ["backend"; "api"]);
    ("mobile", ["mobile development"]);
    ("data", ["data analysis"; "python"]);
    ("ml", ["machine learning"; "python"]);
    ("bot", ["automation"; "scripting"]) ].

Definition inferSkillsFromRepoName (repoName : string) : list string :=
  let lowerName := toLowerCase repoName in
  flat_map
    (fun '(pattern, relatedSkills) =>
       if includes lowerName pattern then relatedSkills else [])
    patterns.

(** [names.forEach(n => this.addSkill(map, n, level, confidence, source))]. *)
Definition addSkills (skillsMap : SkillsMap) (names : list value)
    (level : string) (confidence : Q) (source : string) : SkillsMap :=
  fold_left (fun m n => addSkill m n level confidence source) names skillsMap.

Record Commit : Type := mkCommit { commit_message : option string }.
Record Payload : Type := mkPayload { payload_commits : option (list Commit) }.
Record EventRepo : Type := mkEventRepo { eventRepo_name : option string }.
Record Event : Type := mkEvent
  { event_type : string;
    event_payload : option Payload;
    event_repo : option EventRepo }.

Fixpoint analyzeCommits (skills : SkillsMap) (commits : list Commit)
    : completion SkillsMap :=
  match commits with
  | [] => Ok skills
  | commit :: rest =>
      match commit.(commit_message) with
      | None => Throw
      | Some message =>
          analyzeCommits
            (addSkills skills (map VStr (extractSkillsFromCommitMessage message))
               "intermediate" 0.5 "contribution")
            rest
      end
  end.

Definition analyzeEvent (skills : SkillsMap) (event : Event)
    : completion SkillsMap :=
  skills1 <-
    (if String.eqb event.(event_type) "PushEvent" then
       match event.(event_payload) with
       | None => Throw
       | Some payload =>
           match payload.(payload_commits) with
           | Some commits => analyzeCommits skills commits
           | None => Ok skills
           end
       end
     else Ok skills) ;;
  Ok (match event.(event_repo) with
      | Some {| eventRepo_name := Some repoName |} =>
          if String.eqb repoName "" then skills1
          else addSkills skills1 (map VStr (inferSkillsFromRepoName repoName))
                 "beginner" 0.4 "contribution"
      | _ => skills1
      end).

Fixpoint analyzeEvents (skills : SkillsMap) (contributions : list Event)
    : completion SkillsMap :=
  match contributions with
  | [] => Ok skills
  | event :: rest =>
      skills1 <- analyzeEvent skills event ;; analyzeEvents skills1 rest
  end.

Definition analyzeContributions (contributions : list Event)
    : completion SkillsMap :=
  analyzeEvents [] contributions.

Definition normalizeSkillLevel (skill : Skill) : string :=
  let confidence := skill.(skill_confidence) in
  let idx := indexOf levels skill.(skill_level) in
  let idx :=
    if Qlt_le_dec confidence 0.3 then 0%Z
    else if Qlt_le_dec confidence 0.6 then Z.min 1 idx
    else if Qlt_le_dec 0.9 confidence then Z.max idx 2
    else idx in
  if (idx <? 0)%Z then "beginner" else nth (Z.to_nat idx) levels "beginner".

(** A technology-usage entry.  The extractor emits entries with
    [repoCount] and [totalSize]; the fallback of [getDefaultSkillset] and the
    stored profile have neither. *)
Record LanguageUsage : Type := mkLanguageUsage
  { lu_name : string;
    lu_repoCount : option Z;
    lu_totalSize : option Z;
    lu_linesOfCode : Z;
    lu_percentage : Q }.

Record Preferences : Type := mkPreferences
  { difficultLevels : option (list string) }.

Record User : Type := mkUser
  { username : string;
    bio : option string;
    skills : option (list Skill);
    languages : option (list LanguageUsage);
    preferences : option Preferences }.

Record Repo : Type := mkRepo
  { repo_name : option string;
    repo_description : option string;
    repo_language : value;
    repo_size : option Z;
    repo_topics : option (list value) }.

Record Skillset : Type := mkSkillset
  { out_skills : list Skill;
    out_languages : list LanguageUsage }.

(** The [defaults] of [addDefaultSkills]; their source is passed separately. *)
Definition defaults : list Skill :=
  [ mkSkill (VStr "javascript") "beginner" 0.5 "default";
    mkSkill (VStr "html") "beginner" 0.5 "default";
    mkSkill (VStr "css") "beginner" 0.5 "default";
    mkSkill (VStr "git") "beginner" 0.5 "default" ].

Definition addDefaultSkills (skillsMap : SkillsMap) : SkillsMap :=
  fold_left
    (fun m skill =>
       addSkill m skill.(skill_name) skill.(skill_level)
         skill.(skill_confidence) "default")
    defaults skillsMap.

Definition getDefaultSkillset : Skillset :=
  {| out_skills :=
       [ mkSkill (VStr "javascript") "beginner" 0.5 "default";
         mkSkill (VStr "html") "beginner" 0.5 "default";
         mkSkill (VStr "css") "beginner" 0.5 "default";
         mkSkill (VStr "git") "beginner" 0.5 "default" ];
     out_languages :=
       [ mkLanguageUsage "JavaScript" None None 0 40;
         mkLanguageUsage "HTML" None None 0 30;
         mkLanguageUsage "CSS" None None 0 30 ] |}.

(** A template literal prints a missing value as ["undefined"]. *)
Definition interpolate (o : option string) : string :=
  match o with
  | Some s => s
  | None => "undefined"
  end.

Definition orEmpty (o : option string) : string :=
  match o with
  | Some s => s
  | None => ""
  end.

(** The body of the [for (const repo of repositories)] loop. *)
Definition processRepo (st : SkillsMap * LanguagesMap) (repo : Repo)
    : completion (SkillsMap * LanguagesMap) :=
  let '(skills, languages) := st in
  st1 <-
    (if truthy repo.(repo_language) then
       match repo.(repo_language) with
       | VStr language =>
           let lang := toLowerCase language in
           let currentLang :=
             match mapGet String.eqb languages lang with
             | Some l => l
             | None => mkLangData language 0 0 0
             end in
           let currentLang :=
             mkLangData currentLang.(ld_name)
               (currentLang.(ld_repoCount) + 1)
               (currentLang.(ld_totalSize)
                + match repo.(repo_size) with Some n => n | None => 0 end)
               currentLang.(ld_linesOfCode) in
           Ok (addSkill skills (VStr language)
                 (calculateLanguageLevel currentLang) 0.8 "repository",
               mapSet String.eqb languages lang currentLang)
       | _ => Throw
       end
     else Ok (skills, languages)) ;;
  let '(skills, languages) := st1 in
  let skills :=
    match repo.(repo_topics) with
    | Some topics => addSkills skills topics "intermediate" 0.6 "repository"
    | None => skills
    end in
  let text :=
    interpolate repo.(repo_name) ++ " " ++ orEmpty repo.(repo_description) in
  Ok (addSkills skills (map VStr (extractFrameworksFromText text))
        "intermediate" 0.7 "repository",
      languages).

Fixpoint processRepositories (st : SkillsMap * LanguagesMap)
    (repositories : list (option Repo)) : completion (SkillsMap * LanguagesMap) :=
  match repositories with
  | [] => Ok st
  | None :: rest => processRepositories st rest
  | Some repo :: rest =>
      st1 <- processRepo st repo ;; processRepositories st1 rest
  end.

Definition totalLanguageSize (languages : LanguagesMap) : Z :=
  fold_left (fun sum lang => (sum + lang.(ld_totalSize))%Z)
    (mapValues languages) 0%Z.

Definition finalLanguages (languages : LanguagesMap) : list LanguageUsage :=
  let total := totalLanguageSize languages in
  map
    (fun lang =>
       {| lu_name := lang.(ld_name);
          lu_repoCount := Some lang.(ld_repoCount);
          lu_totalSize := Some lang.(ld_totalSize);
          lu_linesOfCode := lang.(ld_linesOfCode);
          lu_percentage :=
            if (total >? 0)%Z
            then (inject_Z lang.(ld_totalSize) / inject_Z total) * 100
            else 0 |})
    (mapValues languages).

Definition finalSkills (skills : SkillsMap) : list Skill :=
  map
    (fun skill =>
       {| skill_name := skill.(skill_name);
          skill_level := normalizeSkillLevel skill;
          skill_confidence := Qmin skill.(skill_confidence) 1;
          skill_source := skill.(skill_source) |})
    (mapValues skills).

(** The [try] block of [extractUserSkills]. *)
Definition extractUserSkillsBody (user : option User)
    (repositories : option (list (option Repo)))
    (contributions : option (list Event)) : completion Skillset :=
  match user, repositories with
  | Some user, Some repositories =>
      let skills : SkillsMap :=
        match repositories, user.(bio) with
        | [], Some b =>
            if String.eqb b "" then []
            else addSkills [] (map VStr (extractFrameworksFromText b))
                   "beginner" 0.6 "profile"
        | _, _ => []
        end in
      st <- processRepositories (skills, []) repositories ;;
      let '(skills, languages) := st in
      skills <-
        match contributions with
        | Some ((_ :: _) as events) =>
            contributionSkills <- analyzeContributions events ;;
            Ok (fold_left
                  (fun m '(skillName, skillData) =>
                     addSkill m skillName skillData.(skill_level)
                       skillData.(skill_confidence) "contribution")
                  contributionSkills skills)
        | _ => Ok skills
        end ;;
      let skills :=
        match skills with
        | [] => addDefaultSkills skills
        | _ => skills
        end in
      Ok {| out_skills := finalSkills skills;
            out_languages := finalLanguages languages |}
  | _, _ => Throw
  end.

Definition extractUserSkills (user : option User)
    (repositories : option (list (option Repo)))
    (contributions : option (list Event)) : completion Skillset :=
  tryCatch (extractUserSkillsBody user repositories contributions)
    (Ok getDefaultSkillset).

(** *** Match scorer *)

Record Repository : Type := mkRepository
  { repository_language : option string }.

Record Issue : Type := mkIssue
  { issue_repository : option Repository;
    requiredSkills : option (list string);
    difficulty : option string;
    createdAt : option Z }.

(** [issue.repository?.language] when it is truthy. *)
Definition issueLanguage (issue : Issue) : option string :=
  match issue.(issue_repository) with
  | Some {| repository_language := Some l |} =>
      if String.eqb l "" then None else Some l
  | _ => None
  end.

(** [issue.requiredSkills] when [issue.requiredSkills?.length > 0]. *)
Definition issueSkills (issue : Issue) : option (list string) :=
  match issue.(requiredSkills) with
  | Some ((_ :: _) as l) => Some l
  | _ => None
  end.

(** [issue.difficulty] when it is truthy. *)
Definition issueDifficulty (issue : Issue) : option string :=
  match issue.(difficulty) with
  | Some d => if String.eqb d "" then None else Some d
  | None => None
  end.

Definition calculateLanguageMatchScore (userLanguages : option (list LanguageUsage))
    (issueLanguage : string) : Q :=
  match userLanguages with
  | None => 0
  | Some userLanguages =>
      if String.eqb issueLanguage "" then 0
      else
        match find
                (fun lang =>
                   String.eqb (toLowerCase lang.(lu_name)) (toLowerCase issueLanguage))
                userLanguages with
        | None => 0
        | Some matchingLang => Qmin (matchingLang.(lu_percentage) / 100) 1
        end
  end.

(** The name of a stored skill, a string in the profile. *)
Definition skillNameString (skill : Skill) : string :=
  match skill.(skill_name) with
  | VStr s => s
  | _ => ""
  end.

Definition calculateSkillMatchScore (userSkills : option (list Skill))
    (requiredSkills : option (list string)) : Q :=
  match userSkills, requiredSkills with
  | Some userSkills, Some requiredSkills =>
      let userSkillMap :=
        map (fun skill => toLowerCase (skillNameString skill)) userSkills in
      let matchCount :=
        fold_left
          (fun matchCount required =>
             if arrayIncludes userSkillMap (toLowerCase required)
             then (matchCount + 1)%Z else matchCount)
          requiredSkills 0%Z in
      match requiredSkills with
      | [] => 0
      | _ => inject_Z matchCount / inject_Z (Z.of_nat (length requiredSkills))
      end
  | _, _ => 0
  end.

Definition calculateDifficultyMatchScore (userLevels : list string)
    (issueDifficulty : string) : Q :=
  if String.eqb issueDifficulty "" then 0
  else if arrayIncludes userLevels issueDifficulty then 1 else 0.

Definition msPerDay : Q := 1000 * 60 * 60 * 24.

(** [now] is the value of [Date.now()], [createdAt] a time in milliseconds. *)
Definition calculateFreshnessScore (now : Z) (createdAt : option Z) : Q :=
  match createdAt with
  | None => 0
  | Some created =>
      let ageInDays := inject_Z (now - created) / msPerDay in
      Qmax 0 (1 - ageInDays / 30)
  end.

(** The accumulators [(totalScore, maxScore)] after the four factors. *)
Definition scoreAccumulators (now : Z) (user : User) (issue : Issue) : Q * Q :=
  let totalScore := 0 in
  let maxScore := 0 in
  let '(totalScore, maxScore) :=
    match issueLanguage issue with
    | Some language =>
        let languageScore :=
          calculateLanguageMatchScore user.(languages) language in
        (totalScore + languageScore * 0.4, maxScore + 0.4)
    | None => (totalScore, maxScore)
    end in
  let '(totalScore, maxScore) :=
    match issueSkills issue with
    | Some required =>
        let skillScore := calculateSkillMatchScore user.(skills) (Some required) in
        (totalScore + skillScore * 0.3, maxScore + 0.3)
    | None => (totalScore, maxScore)
    end in
  let '(totalScore, maxScore) :=
    match issueDifficulty issue with
    | Some d =>
        let userLevels :=
          match user.(preferences) with
          | Some {| difficultLevels := Some l |} => l
          | _ => []
          end in
        let difficultyScore := calculateDifficultyMatchScore userLevels d in
        (totalScore + difficultyScore * 0.2, maxScore + 0.2)
    | None => (totalScore, maxScore)
    end in
  let freshnessScore := calculateFreshnessScore now issue.(createdAt) in
  (totalScore + freshnessScore * 0.1, maxScore + 0.1).

Definition calculateMatchScore (now : Z) (user : User) (issue : Issue) : Q :=
  let '(totalScore, maxScore) := scoreAccumulators now user issue in
  if Qlt_le_dec 0 maxScore then totalScore / maxScore else 0.

(** *** Item classifier *)

Definition determineDifficulty (text : string) (labels : list string) : string :=
  if arrayIncludes labels "good first issue" || arrayIncludes labels "good-first-issue"
  then "beginner"
  else if arrayIncludes labels "help wanted" then "intermediate"
  else
    let lowercaseText := toLowerCase text in
    if includes lowercaseText "easy" || includes lowercaseText "simple"
       || includes lowercaseText "beginner"
    then "beginner"
    else if includes lowercaseText "advanced" || includes lowercaseText "complex"
    then "advanced"
    else "intermediate".

(** The alternatives of each case-insensitive pattern and its skill. *)
Definition keywordPatterns : list (list string * string) :=
  [ (["react"; "vue"; "angular"; "svelte"], "frontend");
    (["node"; "express"; "django"; "flask"], "backend");
    (["mongodb"; "mysql"; "postgresql"; "sqlite"], "database");
    (["tensorflow"; "pytorch"; "scikit-learn"; "keras"], "machine learning");
    (["docker"; "kubernetes"; "aws"; "azure"; "gcp"], "cloud");
    (["git"; "github"; "gitlab"], "version control");
    (["scrum"; "kanban"; "agile"], "project management");
    (["photoshop"; "illustrator"; "figma"], "design");
    (["excel"; "csv"; "data analysis"], "data analysis") ].

(** [pattern.test(text)] for an alternation of literals under the [i] flag. *)
Definition patternTest (alternatives : list string) (text : string) : bool :=
  existsb (includes (toLowerCase text)) alternatives.

(** [Set.prototype.add]. *)
Definition setAdd (s : list value) (v : value) : list value :=
  if existsb (value_eqb v) s then s else s ++ [v].

Definition textSkills (text : string) : list value :=
  fold_left
    (fun skills '(pattern, skill) =>
       if patternTest pattern text then setAdd skills (VStr skill) else skills)
    keywordPatterns [].

Fixpoint labelSkills (skills : list value) (labels : list value)
    : completion (list value) :=
  match labels with
  | [] => Ok skills
  | label :: rest =>
      name <- getName label ;;
      let normalizedLabel := normalizeSkillName name in
      labelSkills
        (if truthy normalizedLabel then setAdd skills normalizedLabel else skills)
        rest
  end.

Definition extractRequiredSkills (text : string) (labels : list value)
    (repoLanguage : value) : completion (list value) :=
  let skills := textSkills text in
  skills <- labelSkills skills labels ;;
  Ok (if truthy repoLanguage then
        let langSkill := normalizeSkillName repoLanguage in
        if truthy langSkill then setAdd skills langSkill else skills
      else skills).

Definition estimateHours (difficulty : string) (text : string)
    (labels : list string) : Z :=
  let baseHours :=
    if String.eqb difficulty "beginner" then 2%Z
    else if String.eqb difficulty "advanced" then 6%Z
    else if String.eqb difficulty "expert" then 8%Z
    else 4%Z in
  let textLength := Z.of_nat (splitCount " " text) in
  let baseHours :=
    if (textLength >? 300)%Z then (baseHours + 2)%Z
    else if (textLength <? 50)%Z then (baseHours - 1)%Z
    else baseHours in
  Z.max 1 (Z.min baseHours 24).

Record GithubLabel : Type := mkGithubLabel { label_name : option string }.

Record GithubIssue : Type := mkGithubIssue
  { gi_title : option string;
    gi_body : option string;
    gi_labels : option (list GithubLabel) }.

Record RepoInfo : Type := mkRepoInfo { repoInfo_language : value }.

Record Analysis : Type := mkAnalysis
  { a_difficulty : string;
    a_requiredSkills : list value;
    a_estimatedHours : Z }.

(** [issue.labels.map(l => l.name.toLowerCase())]. *)
Fixpoint lowerLabelNames (labels : list GithubLabel) : completion (list string) :=
  match labels with
  | [] => Ok []
  | l :: rest =>
      match l.(label_name) with
      | None => Throw
      | Some n => names <- lowerLabelNames rest ;; Ok (toLowerCase n :: names)
      end
  end.

Definition analyzeIssueContent (issue : GithubIssue) (repoInfo : RepoInfo)
    : completion Analysis :=
  tryCatch
    (let textContent :=
       interpolate issue.(gi_title) ++ " " ++ orEmpty issue.(gi_body) in
     labels <-
       match issue.(gi_labels) with
       | Some ls => lowerLabelNames ls
       | None => Throw
       end ;;
     let difficulty := determineDifficulty textContent labels in
     requiredSkills <-
       extractRequiredSkills textContent (map VStr labels)
         repoInfo.(repoInfo_language) ;;
     let estimatedHours := estimateHours difficulty textContent labels in
     Ok {| a_difficulty := difficulty;
           a_requiredSkills := requiredSkills;
           a_estimatedHours := estimatedHours |})
    (Ok {| a_difficulty := "intermediate";
           a_requiredSkills := [];
           a_estimatedHours := 4%Z |}).

(** The admissible values of the stored field [difficulty] of an issue. *)
Definition difficultyEnum : list string :=
  ["good-first-issue"; "beginner"; "intermediate"; "advanced"].

End AIService.

(** ** The aggregation job *)

Module IssueAggregator.

Local Open Scope nat_scope.

(** The aggregator object together with the invocations of
    [aggregateIssues] that are suspended inside the retry loop.  Each is
    represented by its local [retryCount].  The two counters record the calls
    made to the source client and the writes made to the store. *)
Record State : Type := mkState
  { isRunning : bool;
    cycles : list nat;
    clientCalls : nat;
    storeWrites : nat }.

(** [constructor()]. *)
Definition initial : State :=
  {| isRunning := false; cycles := []; clientCalls := 0; storeWrites := 0 |}.

(** What the event loop can do next: invoke [aggregateIssues] (timer tick,
    start-up run or the recommendations route), or resume the [i]-th
    suspended invocation until its current pass through the [try] block
    either reaches [break] or throws, after [calls] client calls and
    [writes] store writes. *)
Inductive event : Type :=
| Trigger
| AttemptSucceeds (i calls writes : nat)
| AttemptFails (i calls writes : nat).

Fixpoint removeAt {A} (i : nat) (l : list A) : list A :=
  match l, i with
  | [], _ => []
  | _ :: t, 0 => t
  | x :: t, S j => x :: removeAt j t
  end.

Fixpoint replaceAt {A} (i : nat) (y : A) (l : list A) : list A :=
  match l, i with
  | [], _ => []
  | _ :: t, 0 => y :: t
  | x :: t, S j => x :: replaceAt j y t
  end.

(** The synchronous prefix of [aggregateIssues]: the guard, then
    [this.isRunning = true] and [retryCount = 3].  Nothing can run between
    the test and the assignment. *)
Definition aggregateIssues (s : State) : State :=
  if s.(isRunning) then s
  else
    {| isRunning := true;
       cycles := s.(cycles) ++ [3];
       clientCalls := s.(clientCalls);
       storeWrites := s.(storeWrites) |}.

(** Leaving the loop: [this.isRunning = false] and the invocation returns. *)
Definition leaveLoop (i calls writes : nat) (s : State) : State :=
  {| isRunning := false;
     cycles := removeAt i s.(cycles);
     clientCalls := s.(clientCalls) + calls;
     storeWrites := s.(storeWrites) + writes |}.

Definition step (e : event) (s : State) : State :=
  match e with
  | Trigger => aggregateIssues s
  | AttemptSucceeds i calls writes =>
      match nth_error s.(cycles) i with
      | Some (S _) => leaveLoop i calls writes s
      | _ => s
      end
  | AttemptFails i calls writes =>
      match nth_error s.(cycles) i with
      | Some (S retryCount) =>
          match retryCount with
          | S _ =>
              {| isRunning := s.(isRunning);
                 cycles := replaceAt i retryCount s.(cycles);
                 clientCalls := s.(clientCalls) + calls;
                 storeWrites := s.(storeWrites) + writes |}
          | 0 => leaveLoop i calls writes s
          end
      | _ => s
      end
  end.

Definition run (events : list event) (s : State) : State :=
  fold_left (fun s e => step e s) events s.

(** The flag is set exactly while one invocation is inside the retry loop,
    with between one and three attempts left. *)
Definition guarded (s : State) : Prop :=
  match s.(cycles) with
  | [] => s.(isRunning) = false
  | [retryCount] => s.(isRunning) = true /\ 1 <= retryCount <= 3
  | _ => False
  end.

End IssueAggregator.

(** ** Decision procedures used in the proofs *)

Module Checks.


(** The shape of a well-formed skills map: distinct keys, and every entry
    carries its key as name, a truthy name, a level out of [levels] and a
    confidence in (0, 1]. *)
Definition skillEntryOk (entry : value * AIService.Skill) : Prop :=
  AIService.skill_name (snd entry) = fst entry /\
  truthy (fst entry) = true /\
  In (AIService.skill_level (snd entry)) AIService.levels /\
  (0 < AIService.skill_confidence (snd entry)
   /\ AIService.skill_confidence (snd entry) <= 1)%Q.

Definition skillsOk (m : AIService.SkillsMap) : Prop :=
  NoDup (map fst m) /\ Forall skillEntryOk m.

(** The shape of a well-formed languages map: distinct keys, each the
    lower-cased name of its entry, which counts at least one repository. *)
Definition langEntryOk (entry : string * AIService.LangData) : Prop :=
  fst entry = toLowerCase (AIService.ld_name (snd entry)) /\
  (1 <= AIService.ld_repoCount (snd entry))%Z.

Definition languagesOk (m : AIService.LanguagesMap) : Prop :=
  NoDup (map fst m) /\ Forall langEntryOk m.





(** Whether an evaluation completed. *)
Definition isOk {A} (c : completion A) : bool :=
  match c with
  | Ok _ => true
  | Throw => false
  end.


(** Whether the labels of an issue are present and all named. *)
Definition labelsOk (issue : AIService.GithubIssue) : bool :=
  match AIService.gi_labels issue with
  | Some labels =>
      forallb
        (fun l => match AIService.label_name l with Some _ => true | None => false end)
        labels
  | None => false
  end.

(** The skills of the nine keyword categories. *)
Definition categories : list value :=
  map (fun p => VStr (snd p)) AIService.keywordPatterns.

(** Whether a character occurs in a string. *)
Fixpoint hasChar (c : ascii) (s : string) : bool :=
  match s with
  | EmptyString => false
  | String x t => Ascii.eqb x c || hasChar c t
  end.

End Checks.

(** ** Matching: reasons and ranking *)

Module Matching.

Import AIService.

(** [Array.prototype.join]. *)
Definition join (sep : string) (parts : list string) : string :=
  match parts with
  | [] => ""
  | first :: rest => fold_left (fun acc part => acc ++ sep ++ part) rest first
  end.

(** [user.skills?.some(skill => skill.name.toLowerCase() === required.toLowerCase())]. *)
Definition userHasSkill (user : User) (required : string) : bool :=
  match user.(skills) with
  | Some userSkills =>
      existsb
        (fun skill =>
           String.eqb (toLowerCase (skillNameString skill)) (toLowerCase required))
        userSkills
  | None => false
  end.

Definition getMatchReasons (user : User) (issue : Issue) : list string :=
  let reasons : list string := [] in
  let reasons :=
    match issueLanguage issue with
    | Some language =>
        match user.(languages) with
        | Some userLanguages =>
            match find
                    (fun l =>
                       String.eqb (toLowerCase l.(lu_name)) (toLowerCase language))
                    userLanguages with
            | Some langMatch =>
                app reasons
                  ["Matches your " ++ langMatch.(lu_name) ++ " experience"]
            | None => reasons
            end
        | None => reasons
        end
    | None => reasons
    end in
  let reasons :=
    match issue.(requiredSkills) with
    | Some required =>
        let matchedSkills := filter (userHasSkill user) required in
        match matchedSkills with
        | [] => reasons
        | _ => app reasons ["Matches your skills: " ++ join ", " matchedSkills]
        end
    | None => reasons
    end in
  match issueDifficulty issue with
  | Some d =>
      match user.(preferences) with
      | Some {| difficultLevels := Some preferred |} =>
          if arrayIncludes preferred d
          then app reasons ["Matches your preferred difficulty level"]
          else reasons
      | _ => reasons
      end
  | None => reasons
  end.

Record Match : Type := mkMatch
  { match_issue : Issue;
    match_score : Q;
    match_reasons : list string }.

(** [matches.sort((a, b) => b.score - a.score)]: the sort is stable, so its
    result is the one of any stable sort by falling score; an element passes
    only elements of strictly higher score. *)
Fixpoint insertByScore (x : Match) (sorted : list Match) : list Match :=
  match sorted with
  | [] => [x]
  | y :: rest =>
      if Qlt_le_dec x.(match_score) y.(match_score)
      then y :: insertByScore x rest
      else x :: y :: rest
  end.

Fixpoint sortByScore (matches : list Match) : list Match :=
  match matches with
  | [] => []
  | x :: rest => insertByScore x (sortByScore rest)
  end.

(** [xs.slice(0, limit)] for an integer [limit]; a negative one counts from
    the end. *)
Definition sliceTo {A} (xs : list A) (limit : Z) : list A :=
  if (limit <? 0)%Z
  then firstn (Z.to_nat (Z.max 0 (Z.of_nat (length xs) + limit))) xs
  else firstn (Z.to_nat limit) xs.

Definition findMatchingIssues (now : Z) (user : User) (issues : list Issue)
    (limit : Z) : completion (list Match) :=
  tryCatch
    (match user.(skills) with
     | Some ((_ :: _) as userSkills) =>
         let matchedIssues :=
           map
             (fun issue =>
                {| match_issue := issue;
                   match_score := calculateMatchScore now user issue;
                   match_reasons := getMatchReasons user issue |})
             issues in
         let validMatches :=
           filter
             (fun m => if Qlt_le_dec 0.2 m.(match_score) then true else false)
             matchedIssues in
         let sortedMatches := sortByScore validMatches in
         Ok (sliceTo sortedMatches limit)
     | _ => Throw
     end)
    (Ok []).

End Matching.

(** ** The aggregation job: building the stored record *)

Module AggregatorData.

Import AIService.

(** [s.split(sep)] for a one-character separator. *)
Fixpoint split (sep : ascii) (s : string) : list string :=
  match s with
  | EmptyString => [""]
  | String c t =>
      if Ascii.eqb c sep then "" :: split sep t
      else
        match split sep t with
        | first :: rest => String c first :: rest
        | [] => [String c ""]
        end
  end.

(** [xs.slice(-2)]. *)
Definition lastTwo {A} (xs : list A) : list A := skipn (length xs - 2) xs.

(** The part of a GitHub issue that the job reads besides title, body and
    labels. *)
Record RawRepository : Type := mkRawRepository
  { raw_description : option string;
    raw_language : value;
    raw_stargazers_count : option Z }.

Record RawIssue : Type := mkRawIssue
  { raw_id : option Z;
    raw_pull_request : bool;
    raw_content : GithubIssue;
    raw_state : string;
    raw_number : Z;
    raw_repository_url : option string;
    raw_repository : option RawRepository;
    raw_comments : Z;
    raw_reactions : option Z;
    raw_created_at : Z;
    raw_updated_at : Z }.

Record RepositoryInfo : Type := mkRepositoryInfo
  { info_name : option string;
    info_fullName : string;
    info_owner : option string;
    info_description : option string;
    info_language : value;
    info_stars : Z;
    info_url : string }.

(** [x || 0] for a number. *)
Definition orZero (x : option Z) : Z :=
  match x with
  | Some n => n
  | None => 0%Z
  end.

(** [githubIssue.repository_url.split('/')] throws on a missing URL. *)
Definition extractRepositoryInfo (githubIssue : RawIssue)
    : completion RepositoryInfo :=
  match githubIssue.(raw_repository_url) with
  | None => Throw
  | Some repoUrl =>
      let parts := lastTwo (split "/" repoUrl) in
      let owner := nth_error parts 0 in
      let repo := nth_error parts 1 in
      Ok {| info_name := repo;
            info_fullName := interpolate owner ++ "/" ++ interpolate repo;
            info_owner := owner;
            info_description :=
              match githubIssue.(raw_repository) with
              | Some r => r.(raw_description)
              | None => None
              end;
            info_language :=
              match githubIssue.(raw_repository) with
              | Some r => r.(raw_language)
              | None => VUndefined
              end;
            info_stars :=
              match githubIssue.(raw_repository) with
              | Some r => orZero r.(raw_stargazers_count)
              | None => 0%Z
              end;
            info_url := repoUrl |}
  end.

Definition calculatePopularity (now : Z) (githubIssue : RawIssue)
    (repoInfo : RepositoryInfo) : Q :=
  let score := 0 in
  let score := score + Qmin (inject_Z repoInfo.(info_stars) / 1000) 1 * 0.4 in
  let score := score + Qmin (inject_Z githubIssue.(raw_comments) / 10) 1 * 0.3 in
  let reactions := orZero githubIssue.(raw_reactions) in
  let score := score + Qmin (inject_Z reactions / 5) 1 * 0.2 in
  let daysOld := inject_Z (now - githubIssue.(raw_created_at)) / msPerDay in
  let score := score + Qmax 0 (1 - daysOld / 30) * 0.1 in
  score.

(** The record that is written to the store. *)
Record IssueData : Type := mkIssueData
  { data_githubId : Z;
    data_title : option string;
    data_body : string;
    data_state : string;
    data_number : Z;
    data_repository : RepositoryInfo;
    data_labels : list GithubLabel;
    data_difficulty : string;
    data_requiredSkills : list value;
    data_createdAt : Z;
    data_updatedAt : Z;
    data_lastActivity : Z;
    data_isActive : bool;
    data_popularity : Q }.

Section Store.

(** The collection of stored issues and the three operations the job calls
    on it; each may throw. *)
Variable Store : Type.
Variable DocId : Type.
Variable findOne : Store -> Z -> completion (option DocId).
Variable findByIdAndUpdate : Store -> DocId -> IssueData -> completion Store.
Variable create : Store -> IssueData -> completion Store.

Definition processAndStoreIssue (now : Z) (store : Store)
    (githubIssue : option RawIssue) : completion Store :=
  match githubIssue with
  | None => Ok store
  | Some githubIssue =>
      match githubIssue.(raw_id) with
      | None => Ok store
      | Some id =>
          if (id =? 0)%Z then Ok store
          else if githubIssue.(raw_pull_request) then Ok store
          else
            existingIssue <- findOne store id ;;
            repoInfo <- extractRepositoryInfo githubIssue ;;
            aiAnalysis <-
              analyzeIssueContent githubIssue.(raw_content)
                (mkRepoInfo repoInfo.(info_language)) ;;
            let issueData :=
              {| data_githubId := id;
                 data_title := githubIssue.(raw_content).(gi_title);
                 data_body := orEmpty githubIssue.(raw_content).(gi_body);
                 data_state := githubIssue.(raw_state);
                 data_number := githubIssue.(raw_number);
                 data_repository := repoInfo;
                 data_labels :=
                   match githubIssue.(raw_content).(gi_labels) with
                   | Some labels => labels
                   | None => []
                   end;
                 data_difficulty := aiAnalysis.(a_difficulty);
                 data_requiredSkills := aiAnalysis.(a_requiredSkills);
                 data_createdAt := githubIssue.(raw_created_at);
                 data_updatedAt := githubIssue.(raw_updated_at);
                 data_lastActivity := githubIssue.(raw_updated_at);
                 data_isActive := true;
                 data_popularity := calculatePopularity now githubIssue repoInfo |} in
            match existingIssue with
            | Some docId => findByIdAndUpdate store docId issueData
            | None => create store issueData
            end
      end
  end.

(** The argument of [processIssues]: nothing, an array, or a search result
    with its [items]. *)
Inductive issuesArg : Type :=
| NoIssues
| IssueArray (issues : list (option RawIssue))
| SearchResult (items : option (list (option RawIssue))).

(** The loop of [processIssues]: an issue whose processing throws is
    logged and left out of the count. *)
Fixpoint processLoop (now : Z) (issues : list (option RawIssue))
    (processedCount : Z) (store : Store) : Z * Store :=
  match issues with
  | [] => (processedCount, store)
  | issue :: rest =>
      match processAndStoreIssue now store issue with
      | Ok store1 => processLoop now rest (processedCount + 1)%Z store1
      | Throw => processLoop now rest processedCount store
      end
  end.

Definition processIssues (now : Z) (issues : issuesArg) (store : Store)
    : Z * Store :=
  match issues with
  | NoIssues => (0%Z, store)
  | IssueArray issuesArray => processLoop now issuesArray 0%Z store
  | SearchResult (Some items) => processLoop now items 0%Z store
  | SearchResult None => processLoop now [] 0%Z store
  end.

End Store.

End AggregatorData.

(** ** Checks on the input of the aggregation job *)

Module AggregatorChecks.

(** Issues that [processAndStoreIssue] returns from at once: a missing
    entry, one without id, a pull request. *)
Definition skipped (issue : option AggregatorData.RawIssue) : bool :=
  match issue with
  | None => true
  | Some i =>
      match AggregatorData.raw_id i with
      | None => true
      | Some id => (id =? 0)%Z || AggregatorData.raw_pull_request i
      end
  end.

(** Issues that are not skipped but have no [repository_url]. *)
Definition unprocessable (issue : option AggregatorData.RawIssue) : bool :=
  negb (skipped issue)
  && match issue with
     | Some i =>
         match AggregatorData.raw_repository_url i with
         | Some _ => false
         | None => true
         end
     | None => false
     end.

(** The list an argument of [processIssues] stands for. *)
Definition issuesOf (arg : AggregatorData.issuesArg) : list (option AggregatorData.RawIssue) :=
  match arg with
  | AggregatorData.NoIssues => []
  | AggregatorData.IssueArray l => l
  | AggregatorData.SearchResult (Some l) => l
  | AggregatorData.SearchResult None => []
  end.

(** The store seen as the list of the records handed to it, in order:
    both writing operations append. *)
Definition logUpdate {D : Type} (log : list AggregatorData.IssueData) (doc : D)
    (data : AggregatorData.IssueData)
    : completion (list AggregatorData.IssueData) :=
  Ok (log ++ [data])%list.

Definition logCreate (log : list AggregatorData.IssueData)
    (data : AggregatorData.IssueData)
    : completion (list AggregatorData.IssueData) :=
  Ok (log ++ [data])%list.

End AggregatorChecks.

(** ** Sample data for the aggregation job *)

Module AggregatorExamples.

Import AIService AggregatorData.

(** An issue of the repository octo/widgets, created at time 0, with 1200
    stars, 12 comments and 6 reactions. *)
Definition popularIssue : RawIssue :=
  {| raw_id := Some 42%Z;
     raw_pull_request := false;
     raw_content :=
       mkGithubIssue (Some "Fix typo") None (Some [mkGithubLabel (Some "Python")]);
     raw_state := "open";
     raw_number := 7%Z;
     raw_repository_url := Some "https://api.github.com/repos/octo/widgets";
     raw_repository :=
       Some (mkRawRepository None (VStr "Python") (Some 1200%Z));
     raw_comments := 12%Z;
     raw_reactions := Some 6%Z;
     raw_created_at := 0%Z;
     raw_updated_at := 0%Z |}.


End AggregatorExamples.

(** ** Measures of an extraction result *)

Module Measures.

Import AIService.

(** The sum of the percentages of a technology-usage list. *)
Definition sumPercentages (usages : list LanguageUsage) : Q :=
  fold_right (fun usage acc => usage.(lu_percentage) + acc) 0 usages.

(** The total of the sizes recorded in a technology-usage list. *)
Definition sumSizes (usages : list LanguageUsage) : Z :=
  fold_right
    (fun usage acc =>
       (match usage.(lu_totalSize) with Some n => n | None => 0 end + acc)%Z)
    0%Z usages.

(** The sizes of the repositories that have a language, added up. *)
Definition repoSizes (repositories : list (option Repo)) : Z :=
  fold_right
    (fun repo acc =>
       match repo with
       | Some r =>
           if truthy r.(repo_language)
           then (match r.(repo_size) with Some n => n | None => 0 end + acc)%Z
           else acc
       | None => acc
       end)
    0%Z repositories.

(** The repository counts recorded in a technology-usage list, added up. *)
Definition sumRepoCounts (usages : list LanguageUsage) : Z :=
  fold_right
    (fun usage acc =>
       (match usage.(lu_repoCount) with Some n => n | None => 0 end + acc)%Z)
    0%Z usages.

(** The number of repositories that have a language. *)
Definition languageRepos (repositories : list (option Repo)) : Z :=
  fold_right
    (fun repo acc =>
       match repo with
       | Some r => if truthy r.(repo_language) then (1 + acc)%Z else acc
       | None => acc
       end)
    0%Z repositories.


End Measures.

(** ** Sample data *)

Module Examples.

Import AIService.

(** A skills map holding one entry, observed at a high tier. *)
Definition pythonAdvanced : Skill :=
  mkSkill (VStr "python") "advanced" 0.9 "repository".

Definition oneSkill : SkillsMap := [(VStr "python", pythonAdvanced)].

(** The end-to-end scenario: a profile with the skill python (advanced,
    0.9), 80% python usage and no preferred difficulty, and an issue created
    at the time of evaluation. *)
Definition scenarioProfile : User :=
  mkUser "dev" None (Some [pythonAdvanced])
    (Some [mkLanguageUsage "python" None None 0 80])
    (Some (mkPreferences (Some []))).

Definition scenarioIssue (now : Z) : Issue :=
  mkIssue (Some (mkRepository (Some "python"))) (Some ["python"])
    (Some "intermediate") (Some now).

(** A time of evaluation, in milliseconds since the epoch. *)
Definition evaluationTime : Z := 1700000000000.

(** A profile without skills or languages, and an issue without language,
    skills or difficulty whose creation time lies 30 days after time 0. *)
Definition bareProfile : User := mkUser "dev" None (Some []) (Some []) None.




(** A push event that carries no payload, and a commit without message. *)
Definition brokenEvent : Event := mkEvent "PushEvent" None None.

Definition brokenCommit : Event :=
  mkEvent "PushEvent" (Some (mkPayload (Some [mkCommit None]))) None.

(** Two repositories with a language and a size. *)
Definition sizedRepositories : list (option Repo) :=
  [ Some (mkRepo (Some "my-react-app") None (VStr "JavaScript") (Some 300%Z)
            (Some [VStr "Web"]));
    Some (mkRepo (Some "scripts") (Some "Helpers") (VStr "Python")
            (Some 100%Z) None) ].

(** A repository whose language is not a string. *)
Definition oddRepository : Repo :=
  mkRepo (Some "odd") None (VLabel "Python") None None.

End Examples.

(** ** The user model: skill lookup *)

Module UserModel.

(** An entry of [user.skills] as stored; the schema requires neither
    field. *)
Record StoredSkill : Type := mkStoredSkill
  { stored_name : option string;
    stored_level : string }.

(** [this.skills.find(s => s.name.toLowerCase() === skillName.toLowerCase())]:
    an entry without name that is reached throws. *)
Fixpoint findSkill (skills : list StoredSkill) (skillName : string)
    : completion (option StoredSkill) :=
  match skills with
  | [] => Ok None
  | s :: rest =>
      match s.(stored_name) with
      | None => Throw
      | Some name =>
          if String.eqb (toLowerCase name) (toLowerCase skillName)
          then Ok (Some s)
          else findSkill rest skillName
      end
  end.

Definition getSkillLevel (skills : list StoredSkill) (skillName : string)
    : completion string :=
  skill <- findSkill skills skillName ;;
  Ok match skill with
     | Some s => s.(stored_level)
     | None => "beginner"
     end.

(** [minLevel] is [None] when the argument is left out. *)
Definition hasSkill (skills : list StoredSkill) (skillName : string)
    (minLevel : option string) : completion bool :=
  let minLevel :=
    match minLevel with
    | Some l => l
    | None => "beginner"
    end in
  skill <- findSkill skills skillName ;;
  match skill with
  | None => Ok false
  | Some s =>
      let levels := ["beginner"; "intermediate"; "advanced"; "expert"] in
      let userLevel := indexOf levels s.(stored_level) in
      let requiredLevel := indexOf levels minLevel in
      Ok (requiredLevel <=? userLevel)%Z
  end.

End UserModel.

(** ** The statistics route: achievements *)

Module Achievements.

Record Achievement : Type := mkAchievement
  { ach_name : string;
    ach_description : string;
    ach_icon : string;
    ach_earnedAt : Z }.

(** What [generateAchievements] reads of a user: the levels of the skills,
    the solved issues, and the two timestamps. *)
Record Account : Type := mkAccount
  { acc_skills : list UserModel.StoredSkill;
    acc_solvedIssues : list Z;
    acc_createdAt : Z;
    acc_updatedAt : Z }.

Local Open Scope nat_scope.

Definition generateAchievements (now : Z) (user : Account) : list Achievement :=
  let achievements : list Achievement := [] in
  let achievements :=
    if 10 <=? length user.(acc_skills)
    then app achievements
           [mkAchievement "Polyglot" "Has 10+ identified skills" "🎯"
              user.(acc_updatedAt)]
    else achievements in
  let achievements :=
    if existsb (fun s => String.eqb s.(UserModel.stored_level) "expert")
         user.(acc_skills)
    then app achievements
           [mkAchievement "Expert" "Has expert-level skills" "🏆"
              user.(acc_updatedAt)]
    else achievements in
  let achievements :=
    if 5 <=? length user.(acc_solvedIssues)
    then app achievements
           [mkAchievement "Problem Solver" "Solved 5+ issues" "💡"
              user.(acc_updatedAt)]
    else achievements in
  let achievements :=
    if 20 <=? length user.(acc_solvedIssues)
    then app achievements
           [mkAchievement "Open Source Hero" "Solved 20+ issues" "🦸"
              user.(acc_updatedAt)]
    else achievements in
  let daysSinceJoined :=
    (inject_Z (now - user.(acc_createdAt)) / AIService.msPerDay)%Q in
  if Qle_bool 30 daysSinceJoined
  then app achievements
         [mkAchievement "Dedicated Contributor" "30+ days on the platform" "🔥"
            user.(acc_updatedAt)]
  else achievements.

(** The names in the order of the checks. *)
Definition achievementNames : list string :=
  ["Polyglot"; "Expert"; "Problem Solver"; "Open Source Hero";
   "Dedicated Contributor"].

End Achievements.

(** ** The aggregation job: trending repositories *)

Module Trending.

Record TrendingRepo : Type := mkTrendingRepo
  { trending_id : Z;
    trending_fullName : string }.

(** [xs.findIndex(p)]. *)
Fixpoint findIndex {A} (p : A -> bool) (xs : list A) : Z :=
  match xs with
  | [] => (-1)%Z
  | x :: rest =>
      if p x then 0%Z
      else let i := findIndex p rest in if (i <? 0)%Z then (-1)%Z else (i + 1)%Z
  end.

(** [xs.filter((x, index) => p(x, index))], from position [index] on. *)
Fixpoint filterFrom {A} (p : A -> Z -> bool) (index : Z) (xs : list A) : list A :=
  match xs with
  | [] => []
  | x :: rest =>
      if p x index then x :: filterFrom p (index + 1)%Z rest
      else filterFrom p (index + 1)%Z rest
  end.

Definition filterIndexed {A} (p : A -> Z -> bool) (xs : list A) : list A :=
  filterFrom p 0%Z xs.

Definition languages : list string :=
  ["javascript"; "python"; "java"; "go"; "rust"; "typescript"].

Section Fetch.

(** [githubService.getTrendingRepositories], called with a language or with
    nothing; it may throw. *)
Variable fetch : option string -> completion (list TrendingRepo).

Fixpoint fetchLanguages (langs : list string) (allRepos : list TrendingRepo)
    : list TrendingRepo :=
  match langs with
  | [] => allRepos
  | language :: rest =>
      fetchLanguages rest
        match fetch (Some language) with
        | Ok repos => app allRepos repos
        | Throw => allRepos
        end
  end.

Definition getTrendingRepositories : list TrendingRepo :=
  let allRepos := fetchLanguages languages [] in
  let allRepos :=
    match fetch None with
    | Ok generalRepos => app allRepos generalRepos
    | Throw => allRepos
    end in
  let uniqueRepos :=
    filterIndexed
      (fun repo index =>
         (index =? findIndex
                     (fun r => (r.(trending_id) =? repo.(trending_id))%Z)
                     allRepos)%Z)
      allRepos in
  firstn 50 uniqueRepos.

End Fetch.

(** The first repository of each id, given the ones already seen. *)
Fixpoint firstOfEachId (seen : list TrendingRepo) (repos : list TrendingRepo)
    : list TrendingRepo :=
  match repos with
  | [] => []
  | repo :: rest =>
      if existsb (fun r => (r.(trending_id) =? repo.(trending_id))%Z) seen
      then firstOfEachId (app seen [repo]) rest
      else repo :: firstOfEachId (app seen [repo]) rest
  end.

End Trending.

(** ** The recommendations route: scoring and pagination *)

Module Recommendations.

Import AIService Matching.





End Recommendations.

(** ** Sample accounts *)

Module UserExamples.

Definition rustSkill : UserModel.StoredSkill :=
  UserModel.mkStoredSkill (Some "Rust") "advanced".

Definition storedSkills : list UserModel.StoredSkill :=
  [UserModel.mkStoredSkill (Some "Go") "beginner"; rustSkill;
   UserModel.mkStoredSkill None "expert"].

End UserExamples.

(** * Properties *)

Import AIService.

(** ** Strings and values *)

Section StringFacts.

Local Open Scope nat_scope.

Ltac by_cases_on_char c :=
  destruct c as [[] [] [] [] [] [] [] []]; vm_compute; try reflexivity;
  try discriminate; auto.


Lemma lowerChar_idempotent (c : ascii) : lowerChar (lowerChar c) = lowerChar c.
Proof. by_cases_on_char c. Qed.

Lemma toLowerCase_idempotent (s : string) :
  toLowerCase (toLowerCase s) = toLowerCase s.
Proof.
  induction s as [|c s IH]; simpl; [reflexivity|].
  now rewrite lowerChar_idempotent, IH.
Qed.









Lemma value_eqb_eq (a b : value) : value_eqb a b = true <-> a = b.
Proof.
  destruct a, b; simpl; split; intro H;
    try reflexivity; try discriminate;
    try (apply String.eqb_eq in H; now subst);
    try (injection H as ->; apply String.eqb_refl).
Qed.

Lemma value_eqb_refl (a : value) : value_eqb a a = true.
Proof. now apply value_eqb_eq. Qed.

End StringFacts.

(** ** Insertion-ordered maps *)

Section OrderedMapFacts.

Context {K V : Type} (eqb : K -> K -> bool).
Hypothesis eqb_eq : forall a b, eqb a b = true <-> a = b.

Lemma mapGet_mapSet_same (m : list (K * V)) (k : K) (v : V) :
  mapGet eqb (mapSet eqb m k v) k = Some v.
Proof.
  induction m as [|[k' v'] m IH]; simpl.
  - now rewrite (proj2 (eqb_eq k k) eq_refl).
  - destruct (eqb k' k) eqn:E; simpl; rewrite E; [reflexivity | exact IH].
Qed.

Lemma mapGet_mapSet_other (m : list (K * V)) (k k' : K) (v : V) :
  k' <> k -> mapGet eqb (mapSet eqb m k v) k' = mapGet eqb m k'.
Proof.
  intro Hne.
  assert (Hk : eqb k k' = false).
  { destruct (eqb k k') eqn:E; [|reflexivity].
    apply eqb_eq in E. now subst. }
  induction m as [|[k0 v0] m IH]; simpl.
  - now rewrite Hk.
  - destruct (eqb k0 k) eqn:E; simpl.
    + apply eqb_eq in E. subst k0. now rewrite Hk.
    + now rewrite IH.
Qed.

Lemma mapSet_keys_present (m : list (K * V)) (k : K) (v v0 : V) :
  mapGet eqb m k = Some v0 -> map fst (mapSet eqb m k v) = map fst m.
Proof.
  induction m as [|[k' v'] m IH]; simpl; [discriminate|].
  destruct (eqb k' k) eqn:E; simpl; [reflexivity|].
  intro H. now rewrite IH.
Qed.

End OrderedMapFacts.

(** ** Skill normalizer *)




(** The inherited property: a name that normalizes to ["constructor"] comes
    back as the [Object] function, not as a string. *)
Lemma normalizeSkillName_constructor :
  normalizeSkillName (VStr "Constructor") = VObjectFn.
Proof. reflexivity. Qed.



(** ** Skill merge *)

Lemma levels_order :
  indexOf levels "beginner" = 0%Z /\ indexOf levels "intermediate" = 1%Z /\
  indexOf levels "advanced" = 2%Z /\ indexOf levels "expert" = 3%Z.
Proof. repeat split. Qed.

(** A name that normalizes to a falsy value is skipped. *)
Lemma addSkill_skips_falsy (skillsMap : SkillsMap) (name : value)
    (level : string) (confidence : Q) (source : string) :
  truthy (normalizeSkillName name) = false ->
  addSkill skillsMap name level confidence source = skillsMap.
Proof. intro H. unfold addSkill. now rewrite H. Qed.

(** A name that is new to the map is inserted as observed. *)
Lemma addSkill_inserts_new (skillsMap : SkillsMap) (name : value)
    (level : string) (confidence : Q) (source : string) :
  truthy (normalizeSkillName name) = true ->
  mapGet value_eqb skillsMap (normalizeSkillName name) = None ->
  mapGet value_eqb (addSkill skillsMap name level confidence source)
    (normalizeSkillName name)
  = Some (mkSkill (normalizeSkillName name) level confidence source) /\
  (forall k,
     k <> normalizeSkillName name ->
     mapGet value_eqb (addSkill skillsMap name level confidence source) k
     = mapGet value_eqb skillsMap k).
Proof.
  intros Htruthy Hget. unfold addSkill. rewrite Htruthy, Hget.
  cbn [negb]. cbv iota zeta. split.
  - apply (mapGet_mapSet_same _ value_eqb_eq).
  - intros k Hk. now apply (mapGet_mapSet_other _ value_eqb_eq).
Qed.

(** C6.  When the normalized name is already in the map, [addSkill] sets the
    confidence of that entry to the arithmetic mean of the old and the new
    confidence and its level to the higher of the two in the order
    beginner < intermediate < advanced < expert; the level never goes down.
    The name and source of the entry, the keys of the map and all other
    entries stay as they were. *)
Theorem addSkill_merges_existing (skillsMap : SkillsMap) (name : value)
    (level : string) (confidence : Q) (source : string) (existing : Skill) :
  truthy (normalizeSkillName name) = true ->
  mapGet value_eqb skillsMap (normalizeSkillName name) = Some existing ->
  exists merged,
    mapGet value_eqb (addSkill skillsMap name level confidence source)
      (normalizeSkillName name) = Some merged /\
    merged.(skill_confidence) == (existing.(skill_confidence) + confidence) / 2 /\
    indexOf levels merged.(skill_level)
    = Z.max (indexOf levels existing.(skill_level)) (indexOf levels level) /\
    (merged.(skill_level) = existing.(skill_level) \/ merged.(skill_level) = level) /\
    (indexOf levels existing.(skill_level) <= indexOf levels merged.(skill_level))%Z /\
    merged.(skill_name) = existing.(skill_name) /\
    merged.(skill_source) = existing.(skill_source) /\
    map fst (addSkill skillsMap name level confidence source) = map fst skillsMap /\
    (forall k,
       k <> normalizeSkillName name ->
       mapGet value_eqb (addSkill skillsMap name level confidence source) k
       = mapGet value_eqb skillsMap k).
Proof.
  intros Htruthy Hget. unfold addSkill. rewrite Htruthy, Hget.
  cbn [negb]. cbv iota zeta.
  eexists. split; [apply (mapGet_mapSet_same _ value_eqb_eq)|].
  cbn [skill_confidence skill_level skill_name skill_source].
  split; [reflexivity|].
  destruct (indexOf levels level >? indexOf levels (skill_level existing))%Z eqn:E.
  - apply Z.gtb_lt in E. repeat split; auto; try lia.
    + eapply mapSet_keys_present; eassumption.
    + intros k Hk. now apply (mapGet_mapSet_other _ value_eqb_eq).
  - rewrite Z.gtb_ltb in E. apply Z.ltb_ge in E. repeat split; auto; try lia.
    + eapply mapSet_keys_present; eassumption.
    + intros k Hk. now apply (mapGet_mapSet_other _ value_eqb_eq).
Qed.

(** A beginner-tier observation at confidence 1 of a skill held at the
    advanced tier with confidence 0.9. *)
Lemma addSkill_merges_existing_witness :
  truthy (normalizeSkillName (VStr "Python")) = true /\
  exists merged,
    mapGet value_eqb
      (addSkill Examples.oneSkill (VStr "Python") "beginner" 1 "contribution")
      (VStr "python") = Some merged /\
    merged.(skill_confidence) == (0.9 + 1) / 2 /\
    merged.(skill_level) = "advanced".
Proof.
  split; [reflexivity|].
  destruct (addSkill_merges_existing Examples.oneSkill (VStr "Python")
              "beginner" 1 "contribution" Examples.pythonAdvanced
              eq_refl eq_refl)
    as (merged & Hget & Hconf & _ & [Hlevel|Hlevel] & Hmono & _).
  - exists merged. repeat split; assumption.
  - exfalso. rewrite Hlevel in Hmono. vm_compute in Hmono. now apply Hmono.
Defined.

(** ** Item classifier: difficulty *)

Lemma arrayIncludes_In (xs : list string) (x : string) :
  arrayIncludes xs x = true <-> In x xs.
Proof.
  unfold arrayIncludes. rewrite existsb_exists. split.
  - intros (y & Hy & E). apply String.eqb_eq in E. now subst.
  - intro H. exists x. split; [exact H | apply String.eqb_refl].
Qed.

Lemma arrayIncludes_not_In (xs : list string) (x : string) :
  arrayIncludes xs x = false <-> ~ In x xs.
Proof.
  rewrite <- arrayIncludes_In. destruct (arrayIncludes xs x); split; intro H;
    try reflexivity; try discriminate; try (intro; discriminate).
  exfalso. now apply H.
Qed.

(** C3.  The labels decide first: with the label ["good first issue"] (or
    its hyphenated spelling) the difficulty is ["beginner"], the novice tier,
    whatever the text says; otherwise
    ["help wanted"] gives ["intermediate"].  Only when neither label (nor the
    hyphenated spelling of the first) is present does the text decide:
    "easy", "simple" or "beginner" give ["beginner"]; failing those,
    "advanced" or "complex" give ["advanced"]; failing all, the result is
    ["intermediate"]. *)
Theorem determineDifficulty_precedence (text : string) (labels : list string) :
  (In "good first issue" labels ->
   determineDifficulty text labels = "beginner") /\
  (In "good-first-issue" labels ->
   determineDifficulty text labels = "beginner") /\
  (~ In "good first issue" labels -> ~ In "good-first-issue" labels ->
   In "help wanted" labels ->
   determineDifficulty text labels = "intermediate") /\
  (~ In "good first issue" labels -> ~ In "good-first-issue" labels ->
   ~ In "help wanted" labels ->
   let mentions := includes (toLowerCase text) in
   let novice := mentions "easy" || mentions "simple" || mentions "beginner" in
   let hard := mentions "advanced" || mentions "complex" in
   (novice = true -> determineDifficulty text labels = "beginner") /\
   (novice = false -> hard = true ->
    determineDifficulty text labels = "advanced") /\
   (novice = false -> hard = false ->
    determineDifficulty text labels = "intermediate")).
Proof.
  split; [|split; [|split]].
  - intro H. apply arrayIncludes_In in H.
    unfold determineDifficulty. now rewrite H.
  - intro H. apply arrayIncludes_In in H.
    unfold determineDifficulty. rewrite H. now rewrite orb_true_r.
  - intros H1 H2 H3.
    apply arrayIncludes_not_In in H1, H2. apply arrayIncludes_In in H3.
    unfold determineDifficulty. now rewrite H1, H2, H3.
  - intros H1 H2 H3 mentions novice hard.
    apply arrayIncludes_not_In in H1, H2, H3.
    assert (E : determineDifficulty text labels
                = if novice then "beginner"
                  else if hard then "advanced" else "intermediate").
    { unfold determineDifficulty. now rewrite H1, H2, H3. }
    rewrite E. split; [|split].
    + now intros ->.
    + now intros -> ->.
    + now intros -> ->.
Qed.

(** The precedence at work: a "good first issue" whose text says
    "advanced". *)
Example determineDifficulty_label_beats_text :
  determineDifficulty "Advanced refactoring of the complex parser"
    ["bug"; "good first issue"] = "beginner".
Proof. reflexivity. Qed.

Lemma lowerLabelNames_named (names : list string) :
  lowerLabelNames (map (fun n => mkGithubLabel (Some n)) names)
  = Ok (map toLowerCase names).
Proof.
  induction names as [|n names IH]; [reflexivity|].
  cbn [map lowerLabelNames label_name]. rewrite IH. reflexivity.
Qed.

(** The same precedence for a whole issue: when every label has a name and
    one of them is "good first issue" in any letter case, the analysis
    completes with the difficulty ["beginner"]. *)
Lemma analyzeIssueContent_good_first_issue (title body : option string)
    (names : list string) (repoInfo : RepoInfo) :
  In "good first issue" (map toLowerCase names) ->
  exists analysis,
    analyzeIssueContent
      (mkGithubIssue title body
         (Some (map (fun n => mkGithubLabel (Some n)) names)))
      repoInfo = Ok analysis /\
    analysis.(a_difficulty) = "beginner".
Proof.
  intro Hin. unfold analyzeIssueContent. cbn [gi_labels gi_title gi_body].
  rewrite lowerLabelNames_named. cbn [bind].
  unfold extractRequiredSkills.
  assert (Hl : forall acc ls, labelSkills acc (map VStr ls) = Ok acc).
  { intros acc ls. revert acc.
    induction ls as [|l ls IH]; intro acc; [reflexivity | apply IH]. }
  rewrite Hl. cbn [bind tryCatch].
  eexists. split; [reflexivity|]. cbn [a_difficulty].
  unfold determineDifficulty.
  apply arrayIncludes_In in Hin. now rewrite Hin.
Qed.

(** C10, as stated, fails: ["expert"] is no admissible value of the stored
    difficulty field. *)
Lemma expert_not_admissible_difficulty :
  ~ (In "good-first-issue" difficultyEnum /\ In "expert" difficultyEnum).
Proof.
  intros [_ H]. unfold difficultyEnum in H. simpl in H.
  repeat (destruct H as [H|H]; [discriminate|]). exact H.
Qed.

(** C10 (amended).  [determineDifficulty] yields ["beginner"],
    ["intermediate"] or ["advanced"], each an admissible value of the stored
    field.  It never yields ["good-first-issue"], which the stored field
    admits, nor ["expert"], which the stored field does not admit. *)
Theorem determineDifficulty_range (text : string) (labels : list string) :
  In (determineDifficulty text labels) ["beginner"; "intermediate"; "advanced"] /\
  determineDifficulty text labels <> "good-first-issue" /\
  determineDifficulty text labels <> "expert" /\
  In (determineDifficulty text labels) difficultyEnum /\
  In "good-first-issue" difficultyEnum /\
  ~ In "expert" difficultyEnum.
Proof.
  assert (H : In (determineDifficulty text labels)
                ["beginner"; "intermediate"; "advanced"]).
  { unfold determineDifficulty.
    repeat match goal with
           | |- context [if ?b then _ else _] => destruct b
           end; simpl; auto. }
  split; [exact H|].
  assert (Hex : ~ In "expert" difficultyEnum).
  { intro E. unfold difficultyEnum in E. simpl in E.
    repeat (destruct E as [E|E]; [discriminate|]). exact E. }
  repeat split.
  - intro E. rewrite E in H. simpl in H.
    repeat (destruct H as [H|H]; [discriminate|]). exact H.
  - intro E. rewrite E in H. simpl in H.
    repeat (destruct H as [H|H]; [discriminate|]). exact H.
  - simpl in H. unfold difficultyEnum.
    destruct H as [H|[H|[H|[]]]]; rewrite <- H; simpl; auto.
  - unfold difficultyEnum. simpl. auto.
  - exact Hex.
Qed.

(** ** Item classifier: required skills *)

Lemma setAdd_incl (s : list value) (v : value) : incl s (setAdd s v).
Proof.
  unfold setAdd. destruct (existsb _ s); [apply incl_refl|].
  apply incl_appl, incl_refl.
Qed.

Lemma setAdd_In (s : list value) (v : value) : In v (setAdd s v).
Proof.
  unfold setAdd. destruct (existsb (value_eqb v) s) eqn:E.
  - apply existsb_exists in E. destruct E as (w & Hw & E).
    apply value_eqb_eq in E. now subst.
  - apply in_or_app. right. now left.
Qed.

Lemma setAdd_NoDup (s : list value) (v : value) : NoDup s -> NoDup (setAdd s v).
Proof.
  intro H. unfold setAdd. destruct (existsb (value_eqb v) s) eqn:E; [exact H|].
  apply NoDup_app; [exact H | repeat constructor; easy |].
  intros x Hx [Hv|[]]. subst x.
  assert (Ht : existsb (value_eqb v) s = true).
  { apply existsb_exists. exists v. split; [exact Hx | apply value_eqb_refl]. }
  congruence.
Qed.

Lemma textSkills_NoDup (text : string) : NoDup (textSkills text).
Proof.
  unfold textSkills.
  assert (G : forall ps acc, NoDup acc ->
              NoDup (fold_left
                       (fun skills '(pattern, skill) =>
                          if patternTest pattern text
                          then setAdd skills (VStr skill) else skills)
                       ps acc)).
  { induction ps as [|[p k] ps IH]; intros acc Hacc; simpl; [exact Hacc|].
    apply IH. destruct (patternTest p text); [now apply setAdd_NoDup | exact Hacc]. }
  apply G. constructor.
Qed.

Lemma labelSkills_NoDup (labels : list value) :
  forall acc r, NoDup acc -> labelSkills acc labels = Ok r -> NoDup r.
Proof.
  induction labels as [|l labels IH]; intros acc r Hacc; simpl.
  - now intros [= <-].
  - destruct (getName l) as [n|]; simpl; [|discriminate].
    apply IH. destruct (truthy _); [now apply setAdd_NoDup | exact Hacc].
Qed.

(** Labels that arrive as strings have no [name]: the loop over the labels
    leaves the set as it is. *)
Lemma labelSkills_strings (labels : list string) (acc : list value) :
  labelSkills acc (map VStr labels) = Ok acc.
Proof.
  induction labels as [|l labels IH]; simpl; [reflexivity | exact IH].
Qed.

(** Labels that arrive as objects are normalized and added. *)
Lemma labelSkills_objects (names : list string) :
  forall acc,
  exists r,
    labelSkills acc (map VLabel names) = Ok r /\
    incl acc r /\
    forall n, In n names -> truthy (normalizeSkillName (VStr n)) = true ->
              In (normalizeSkillName (VStr n)) r.
Proof.
  induction names as [|n names IH]; intro acc;
    cbn [map labelSkills getName bind].
  - exists acc. repeat split; [apply incl_refl | intros n []].
  - set (acc' := if truthy (normalizeSkillName (VStr n))
                 then setAdd acc (normalizeSkillName (VStr n)) else acc).
    destruct (IH acc') as (r & Hr & Hincl & Hin).
    exists r. split; [exact Hr|]. split.
    + intros x Hx. apply Hincl. unfold acc'.
      destruct (truthy _); [now apply setAdd_incl | exact Hx].
    + intros m [<-|Hm] Ht; [|now apply Hin].
      apply Hincl. unfold acc'. rewrite Ht. apply setAdd_In.
Qed.

(** What [extractRequiredSkills] does with label objects: every label whose
    name normalizes to a truthy value is in the result, and the result has no
    duplicates. *)
Lemma extractRequiredSkills_label_objects (text : string) (names : list string)
    (repoLanguage : value) :
  exists r,
    extractRequiredSkills text (map VLabel names) repoLanguage = Ok r /\
    NoDup r /\
    forall n, In n names -> truthy (normalizeSkillName (VStr n)) = true ->
              In (normalizeSkillName (VStr n)) r.
Proof.
  unfold extractRequiredSkills.
  destruct (labelSkills_objects names (textSkills text)) as (r & Hr & _ & Hin).
  rewrite Hr. simpl.
  assert (Hnd : NoDup r).
  { eapply labelSkills_NoDup; [apply textSkills_NoDup | exact Hr]. }
  eexists. split; [reflexivity|]. split.
  - destruct (truthy repoLanguage); [|exact Hnd].
    destruct (truthy _); [now apply setAdd_NoDup | exact Hnd].
  - intros n Hn Ht. specialize (Hin n Hn Ht).
    destruct (truthy repoLanguage); [|exact Hin].
    destruct (truthy (normalizeSkillName repoLanguage)); [|exact Hin].
    now apply setAdd_incl.
Qed.

(** C7.  [analyzeIssueContent] hands the labels over as lower-cased strings,
    and [extractRequiredSkills] reads [label.name], which a string does not
    have: whatever the labels, the result is the one for no labels at all.
    An issue labelled "Python" with no keyword in its text and no repository
    language gets no required skill. *)
Theorem analyzeIssueContent_drops_labels :
  (forall text (labels : list string) repoLanguage,
     extractRequiredSkills text (map VStr labels) repoLanguage
     = extractRequiredSkills text [] repoLanguage) /\
  analyzeIssueContent
    (mkGithubIssue (Some "Fix typo") None (Some [mkGithubLabel (Some "Python")]))
    (mkRepoInfo VUndefined)
  = Ok {| a_difficulty := "intermediate";
          a_requiredSkills := [];
          a_estimatedHours := 3 |} /\
  normalizeSkillName (VStr "python") = VStr "python".
Proof.
  split; [|split; reflexivity].
  intros text labels repoLanguage. unfold extractRequiredSkills.
  now rewrite labelSkills_strings.
Qed.

(** ** Match scorer *)

Section ScorerFacts.

Local Open Scope Q_scope.










(** The weight a factor adds to the denominator, and the value it adds,
    weighted, to the numerator. *)
Lemma scoreAccumulators_eq (now : Z) (user : User) (issue : Issue) :
  scoreAccumulators now user issue =
  let '(t, m) :=
    match issueLanguage issue with
    | Some l => (0 + calculateLanguageMatchScore user.(languages) l * 0.4, 0 + 0.4)
    | None => (0, 0)
    end in
  let '(t, m) :=
    match issueSkills issue with
    | Some r => (t + calculateSkillMatchScore user.(skills) (Some r) * 0.3, m + 0.3)
    | None => (t, m)
    end in
  let '(t, m) :=
    match issueDifficulty issue with
    | Some d =>
        (t + calculateDifficultyMatchScore
               match user.(preferences) with
               | Some {| difficultLevels := Some l |} => l
               | _ => []
               end d * 0.2,
         m + 0.2)
    | None => (t, m)
    end in
  (t + calculateFreshnessScore now issue.(createdAt) * 0.1, m + 0.1).
Proof. reflexivity. Qed.

End ScorerFacts.

Section ScorerTheorems.

Local Open Scope Q_scope.




Lemma calculateFreshnessScore_at_creation (now : Z) :
  calculateFreshnessScore now (Some now) = calculateFreshnessScore 0 (Some 0%Z).
Proof. unfold calculateFreshnessScore. now rewrite Z.sub_diag. Qed.

Lemma calculateMatchScore_at_creation (now : Z) :
  calculateMatchScore now Examples.scenarioProfile (Examples.scenarioIssue now)
  = calculateMatchScore 0 Examples.scenarioProfile (Examples.scenarioIssue 0).
Proof.
  unfold calculateMatchScore. rewrite !scoreAccumulators_eq.
  change (createdAt (Examples.scenarioIssue now)) with (Some now).
  rewrite calculateFreshnessScore_at_creation. reflexivity.
Qed.

(** C2, as stated, fails: the score of the scenario is not 0.62. *)
Lemma calculateMatchScore_scenario_not_062 :
  ~ calculateMatchScore Examples.evaluationTime Examples.scenarioProfile
      (Examples.scenarioIssue Examples.evaluationTime) == 0.62.
Proof. rewrite calculateMatchScore_at_creation. discriminate. Qed.

(** C2 (amended).  In the end-to-end scenario the language factor is 0.8,
    the skill factor 1, the difficulty factor 0 and the freshness factor 1;
    all four weights count, and the score is
    (0.8*0.4 + 1*0.3 + 0*0.2 + 1*0.1) / 1 = 0.72. *)
Theorem calculateMatchScore_scenario (now : Z) :
  calculateLanguageMatchScore Examples.scenarioProfile.(languages) "python" == 0.8 /\
  calculateSkillMatchScore Examples.scenarioProfile.(skills) (Some ["python"]) == 1 /\
  calculateDifficultyMatchScore [] "intermediate" == 0 /\
  calculateFreshnessScore now (Some now) == 1 /\
  snd (scoreAccumulators now Examples.scenarioProfile (Examples.scenarioIssue now))
  == 1 /\
  calculateMatchScore now Examples.scenarioProfile (Examples.scenarioIssue now)
  == 0.72 /\
  0.72 == (0.8 * 0.4 + 1 * 0.3 + 0 * 0.2 + 1 * 0.1) / 1.
Proof.
  rewrite calculateMatchScore_at_creation, calculateFreshnessScore_at_creation.
  repeat split; reflexivity.
Qed.

End ScorerTheorems.

(** ** Profile skill extractor *)

Import Measures.

(** Inputs on which the [try] block throws. *)
Example extractUserSkillsBody_throws :
  extractUserSkillsBody None (Some []) None = Throw /\
  extractUserSkillsBody (Some Examples.bareProfile) None None = Throw /\
  extractUserSkillsBody (Some Examples.bareProfile)
    (Some [Some Examples.oddRepository]) None = Throw /\
  extractUserSkillsBody (Some Examples.bareProfile) (Some [])
    (Some [Examples.brokenEvent]) = Throw /\
  extractUserSkillsBody (Some Examples.bareProfile) (Some [])
    (Some [Examples.brokenCommit]) = Throw.
Proof. repeat split. Qed.


Section PercentageFacts.

Local Open Scope Q_scope.

(** The sizes accumulated in a list of language records. *)
Let sizes (vs : list LangData) : Z :=
  fold_right (fun lang acc => (lang.(ld_totalSize) + acc)%Z) 0%Z vs.

(** One entry of [finalLanguages] for a given total. *)
Let usageOf (total : Z) (lang : LangData) : LanguageUsage :=
  {| lu_name := lang.(ld_name);
     lu_repoCount := Some lang.(ld_repoCount);
     lu_totalSize := Some lang.(ld_totalSize);
     lu_linesOfCode := lang.(ld_linesOfCode);
     lu_percentage :=
       if (total >? 0)%Z
       then (inject_Z lang.(ld_totalSize) / inject_Z total) * 100
       else 0 |}.

Lemma fold_left_sizes (vs : list LangData) :
  forall acc : Z,
    fold_left (fun sum lang => (sum + lang.(ld_totalSize))%Z) vs acc
    = (acc + sizes vs)%Z.
Proof.
  induction vs as [|v vs IH]; intro acc; simpl.
  - lia.
  - rewrite IH. fold (sizes vs). lia.
Qed.

Lemma totalLanguageSize_sizes (languages : LanguagesMap) :
  totalLanguageSize languages = sizes (mapValues languages).
Proof. unfold totalLanguageSize. now rewrite fold_left_sizes. Qed.

Lemma finalLanguages_map (languages : LanguagesMap) :
  finalLanguages languages
  = map (usageOf (totalLanguageSize languages)) (mapValues languages).
Proof. reflexivity. Qed.

Lemma sumSizes_usages (total : Z) (vs : list LangData) :
  sumSizes (map (usageOf total) vs) = sizes vs.
Proof.
  induction vs as [|v vs IH]; simpl; [reflexivity|].
  now rewrite IH.
Qed.

Lemma sumPercentages_usages (total : Z) (vs : list LangData) :
  sumPercentages (map (usageOf total) vs)
  == if (total >? 0)%Z then inject_Z (sizes vs) / inject_Z total * 100 else 0.
Proof.
  induction vs as [|v vs IH]; simpl.
  - destruct (total >? 0)%Z; [|reflexivity].
    unfold Qdiv. now rewrite !Qmult_0_l.
  - rewrite IH. fold (sizes vs).
    destruct (total >? 0)%Z eqn:E; [|lra].
    rewrite inject_Z_plus.
    assert (Hnz : ~ inject_Z total == 0).
    { apply Z.gtb_lt in E. intro H.
      assert (0 < inject_Z total) by (change 0 with (inject_Z 0); now rewrite <- Zlt_Qlt).
      lra. }
    field. exact Hnz.
Qed.

(** The percentages of [finalLanguages]: each is the share of its size in
    the total, times 100, or 0 when the total is not positive; they add up to
    100 or to 0 accordingly. *)
Lemma finalLanguages_percentages (languages : LanguagesMap) :
  let usages := finalLanguages languages in
  let total := sumSizes usages in
  total = totalLanguageSize languages /\
  Forall
    (fun usage =>
       exists size,
         usage.(lu_totalSize) = Some size /\
         usage.(lu_percentage)
         == if (total >? 0)%Z then inject_Z size / inject_Z total * 100 else 0)
    usages /\
  sumPercentages usages == if (total >? 0)%Z then 100 else 0.
Proof.
  cbv zeta. rewrite finalLanguages_map, sumSizes_usages, <- totalLanguageSize_sizes.
  split; [reflexivity|]. split.
  - apply Forall_forall. intros usage Hin.
    apply in_map_iff in Hin. destruct Hin as (lang & <- & _).
    exists lang.(ld_totalSize). split; reflexivity.
  - rewrite sumPercentages_usages, <- totalLanguageSize_sizes.
    destruct (totalLanguageSize languages >? 0)%Z eqn:E; [|reflexivity].
    apply Z.gtb_lt in E.
    assert (0 < inject_Z (totalLanguageSize languages))
      by (change 0 with (inject_Z 0); now rewrite <- Zlt_Qlt).
    field. lra.
Qed.

End PercentageFacts.

Section ExtractorTheorems.

Local Open Scope Q_scope.

Lemma totalLanguageSize_mapSet (languages : LanguagesMap) (k : string)
    (v : LangData) :
  totalLanguageSize (mapSet String.eqb languages k v)
  = (totalLanguageSize languages
     - match mapGet String.eqb languages k with
       | Some old => old.(ld_totalSize)
       | None => 0
       end
     + v.(ld_totalSize))%Z.
Proof.
  rewrite !totalLanguageSize_sizes. unfold mapValues.
  induction languages as [|[k' v'] m IH]; simpl.
  - lia.
  - destruct (String.eqb k' k); simpl; lia.
Qed.

Lemma processRepo_total (st st' : SkillsMap * LanguagesMap) (repo : Repo) :
  processRepo st repo = Ok st' ->
  totalLanguageSize (snd st')
  = (totalLanguageSize (snd st) + repoSizes [Some repo])%Z.
Proof.
  destruct st as [skills languages]. unfold processRepo, repoSizes.
  cbn [fold_right snd].
  destruct (truthy (repo_language repo)) eqn:Ht.
  - destruct (repo_language repo) as [| |language| |n]; try discriminate.
    cbn [bind]. intros [= <-]. cbn [snd].
    rewrite totalLanguageSize_mapSet. cbn [ld_totalSize].
    destruct (mapGet String.eqb languages (toLowerCase language));
      cbn [ld_totalSize]; lia.
  - cbn [bind]. intros [= <-]. cbn [snd]. lia.
Qed.

Lemma repoSizes_cons (repo : option Repo) (rest : list (option Repo)) :
  repoSizes (repo :: rest) = (repoSizes [repo] + repoSizes rest)%Z.
Proof.
  unfold repoSizes. cbn [fold_right].
  destruct repo as [r|]; [|lia].
  destruct (truthy (repo_language r)); lia.
Qed.

Lemma processRepositories_total (repositories : list (option Repo)) :
  forall st st',
    processRepositories st repositories = Ok st' ->
    totalLanguageSize (snd st')
    = (totalLanguageSize (snd st) + repoSizes repositories)%Z.
Proof.
  induction repositories as [|[repo|] rest IH]; intros st st'.
  - cbn [processRepositories]. intros [= <-]. cbn. lia.
  - cbn [processRepositories].
    destruct (processRepo st repo) as [st1|] eqn:E; cbn [bind]; [|discriminate].
    intro H. rewrite (IH _ _ H), (processRepo_total _ _ _ E).
    rewrite (repoSizes_cons (Some repo) rest). lia.
  - cbn [processRepositories]. intro H. rewrite (IH _ _ H).
    rewrite (repoSizes_cons None rest). cbn. lia.
Qed.

(** The languages of a completed extraction are those accumulated over the
    repositories. *)
Lemma extractUserSkillsBody_languages (user : option User)
    (repositories : list (option Repo)) (contributions : option (list Event))
    (result : Skillset) :
  extractUserSkillsBody user (Some repositories) contributions = Ok result ->
  exists languages,
    result.(out_languages) = finalLanguages languages /\
    totalLanguageSize languages = repoSizes repositories.
Proof.
  unfold extractUserSkillsBody.
  destruct user as [u|]; [|discriminate].
  match goal with
  | |- context [processRepositories ?st repositories] =>
      destruct (processRepositories st repositories) as [[skills languages]|] eqn:E
  end; cbn [bind]; [|discriminate].
  apply processRepositories_total in E. cbn [snd] in E.
  intro H. exists languages. split; [|exact E].
  destruct contributions as [[|event events]|]; cbn [bind] in H.
  - now injection H as <-.
  - destruct (analyzeContributions (event :: events)); cbn [bind] in H;
      [|discriminate].
    now injection H as <-.
  - now injection H as <-.
Qed.

(** C9, as stated, fails on a run that ends in the fallback: no repository
    was sized, yet the percentages of the result add up to 100. *)
Lemma extractUserSkills_fallback_percentages :
  exists result,
    extractUserSkills (Some Examples.bareProfile) (Some [])
      (Some [Examples.brokenEvent]) = Ok result /\
    repoSizes [] = 0%Z /\
    sumSizes result.(out_languages) = 0%Z /\
    sumPercentages result.(out_languages) == 100 /\
    ~ sumPercentages result.(out_languages) == 0.
Proof.
  eexists. split; [reflexivity|]. repeat split. discriminate.
Qed.

(** C9 (amended).  For every extraction run whose [try] block completes,
    each entry of the technology-usage output records its accumulated size,
    and its percentage is that size divided by the total of the sizes, times
    100, or 0 when the total is not positive.  The total is the sum of the
    sizes of the repositories that have a language.  The percentages add up
    to 100 when the total is positive and to 0 otherwise. *)
Theorem extractUserSkills_percentages (user : option User)
    (repositories : list (option Repo)) (contributions : option (list Event))
    (result : Skillset) :
  extractUserSkillsBody user (Some repositories) contributions = Ok result ->
  let usages := result.(out_languages) in
  let total := sumSizes usages in
  extractUserSkills user (Some repositories) contributions = Ok result /\
  total = repoSizes repositories /\
  Forall
    (fun usage =>
       exists size,
         usage.(lu_totalSize) = Some size /\
         usage.(lu_percentage)
         == if (total >? 0)%Z then inject_Z size / inject_Z total * 100 else 0)
    usages /\
  ((0 < total)%Z -> sumPercentages usages == 100) /\
  ((total <= 0)%Z -> sumPercentages usages == 0).
Proof.
  intros Hbody usages total.
  split; [unfold extractUserSkills; now rewrite Hbody|].
  destruct (extractUserSkillsBody_languages _ _ _ _ Hbody)
    as (languages & Hout & Htotal).
  destruct (finalLanguages_percentages languages) as (Hsum & Hall & Hpct).
  subst usages total. rewrite Hout.
  split; [now rewrite Hsum|]. split; [exact Hall|].
  split; intro H.
  - rewrite Hpct. apply Z.gtb_lt in H. now rewrite H.
  - rewrite Hpct.
    destruct (sumSizes (finalLanguages languages) >? 0)%Z eqn:E; [|reflexivity].
    apply Z.gtb_lt in E. lia.
Qed.

(** Two sized repositories: 300 of JavaScript and 100 of Python. *)
Lemma extractUserSkills_percentages_witness :
  exists result,
    extractUserSkills (Some Examples.bareProfile)
      (Some Examples.sizedRepositories) None = Ok result /\
    sumSizes result.(out_languages) = 400%Z /\
    sumPercentages result.(out_languages) == 100.
Proof.
  eexists.
  pose proof (extractUserSkills_percentages (Some Examples.bareProfile)
                Examples.sizedRepositories None _ eq_refl)
    as (Hrun & Htotal & _ & Hpos & _).
  split; [exact Hrun|]. split; [exact Htotal|].
  apply Hpos. rewrite Htotal. reflexivity.
Defined.

End ExtractorTheorems.

(** ** Aggregation job: the run guard *)

Section SingleFlight.

Import IssueAggregator.
Local Open Scope nat_scope.

Lemma guarded_initial : guarded initial.
Proof. reflexivity. Qed.

Lemma guarded_step (e : event) (s : State) : guarded s -> guarded (step e s).
Proof.
  destruct s as [running cs calls writes]. unfold guarded. cbn [cycles isRunning].
  destruct cs as [|r [|r' cs]]; [| |contradiction].
  - intros ->. destruct e as [|i c w|i c w]; cbn.
    + split; [reflexivity | lia].
    + destruct i; reflexivity.
    + destruct i; reflexivity.
  - intros [-> Hr]. destruct e as [|i c w|i c w]; cbn.
    + split; [reflexivity | exact Hr].
    + destruct i as [|i]; cbn.
      * destruct r; cbn; [lia | reflexivity].
      * destruct i; cbn; split; auto.
    + destruct i as [|i]; cbn.
      * destruct r as [|[|r]]; cbn; [lia | reflexivity |].
        split; [reflexivity | lia].
      * destruct i; cbn; split; auto.
Qed.

Lemma guarded_run (events : list event) :
  forall s, guarded s -> guarded (run events s).
Proof.
  induction events as [|e events IH]; intros s Hs; [exact Hs|].
  apply IH. now apply guarded_step.
Qed.

(** C4.  In every state the job can reach, at most one invocation of
    [aggregateIssues] is inside the retry loop, and the flag [isRunning] is
    set exactly when there is one.  An invocation made while the flag is set
    changes nothing: no client call, no store write.  An invocation made
    while it is clear sets it and starts with three attempts.  Whenever a
    step ends an invocation the flag is clear afterwards; an attempt that
    succeeds ends it, and so do three failed attempts at the latest. *)
Theorem aggregateIssues_single_flight (events : list event) :
  let s := run events initial in
  length s.(cycles) <= 1 /\
  (s.(isRunning) = true <-> s.(cycles) <> []) /\
  (s.(isRunning) = true ->
   aggregateIssues s = s /\
   clientCalls (aggregateIssues s) = clientCalls s /\
   storeWrites (aggregateIssues s) = storeWrites s) /\
  (s.(isRunning) = false ->
   isRunning (aggregateIssues s) = true /\ cycles (aggregateIssues s) = [3]) /\
  (forall e,
     length (cycles (step e s)) < length (cycles s) ->
     isRunning (step e s) = false) /\
  (forall calls writes,
     let s' := step (AttemptSucceeds 0 calls writes) s in
     isRunning s' = false /\ cycles s' = []) /\
  (forall c1 w1 c2 w2 c3 w3,
     let s' :=
       run [AttemptFails 0 c1 w1; AttemptFails 0 c2 w2; AttemptFails 0 c3 w3] s in
     isRunning s' = false /\ cycles s' = []).
Proof.
  intro s. pose proof (guarded_run events initial guarded_initial) as G.
  fold s in G. clearbody s. destruct s as [running cs calls writes].
  unfold guarded in G. cbn [cycles isRunning] in G |- *.
  destruct cs as [|r [|r' cs]]; [| |contradiction].
  - subst running. repeat split; try discriminate; try (cbn; lia).
    intro H. now elim H.
  - destruct G as [-> Hr]. repeat split; try discriminate; try (cbn; lia).
    + intros e. destruct e as [|i c w|i c w]; cbn; [lia| |].
      * destruct i as [|i]; cbn; [destruct r; cbn; [lia|reflexivity]|].
        destruct i; cbn; lia.
      * destruct i as [|i]; cbn.
        -- destruct r as [|[|r]]; cbn; [lia | reflexivity | lia].
        -- destruct i; cbn; lia.
    + cbn. destruct r; [lia | reflexivity].
    + cbn. destruct r; [lia | reflexivity].
    + destruct r as [|[|[|[|r]]]]; cbn; try reflexivity; lia.
    + destruct r as [|[|[|[|r]]]]; cbn; try reflexivity; lia.
Qed.

End SingleFlight.

(** * Further properties of the service *)

(** ** Substrings *)

Section SubstringFacts.






End SubstringFacts.

(** ** Vocabulary scan *)


(** ** Skill levels *)

Section LevelFacts.

Local Open Scope Q_scope.

Lemma indexOf_levels_cases (level : string) :
  (level = "beginner" /\ indexOf levels level = 0%Z) \/
  (level = "intermediate" /\ indexOf levels level = 1%Z) \/
  (level = "advanced" /\ indexOf levels level = 2%Z) \/
  (level = "expert" /\ indexOf levels level = 3%Z) \/
  (~ In level levels /\ indexOf levels level = (-1)%Z).
Proof.
  unfold levels. cbn [indexOf].
  destruct (String.eqb "beginner" level) eqn:E0;
    [apply String.eqb_eq in E0; subst; auto|].
  destruct (String.eqb "intermediate" level) eqn:E1;
    [apply String.eqb_eq in E1; subst; auto|].
  destruct (String.eqb "advanced" level) eqn:E2;
    [apply String.eqb_eq in E2; subst; auto 6|].
  destruct (String.eqb "expert" level) eqn:E3;
    [apply String.eqb_eq in E3; subst; auto 6|].
  do 4 right. split; [|reflexivity].
  apply String.eqb_neq in E0, E1, E2, E3.
  intros [H|[H|[H|[H|[]]]]]; congruence.
Qed.

(** X2.  The final level of a skill is always one of the four levels, also
    for a level that is not one of them.  Confidence below 0.3 gives
    beginner; below 0.6 at most intermediate; above 0.9 at least advanced,
    which lifts a beginner; from 0.6 to 0.9 a valid level is kept. *)
Theorem normalizeSkillLevel_rules (skill : Skill) :
  let confidence := skill.(skill_confidence) in
  let level := skill.(skill_level) in
  let final := normalizeSkillLevel skill in
  In final levels /\
  (confidence < 0.3 -> final = "beginner") /\
  (confidence < 0.6 -> (indexOf levels final <= 1)%Z) /\
  (confidence < 0.6 -> (indexOf levels final <= Z.max 0 (indexOf levels level))%Z) /\
  (0.9 < confidence -> (2 <= indexOf levels final)%Z) /\
  (0.9 < confidence -> (indexOf levels level <= indexOf levels final)%Z) /\
  (0.6 <= confidence -> confidence <= 0.9 -> In level levels -> final = level) /\
  (0.3 <= confidence -> confidence <= 0.9 -> ~ In level levels ->
   final = "beginner").
Proof.
  destruct skill as [name level confidence source].
  cbv zeta. unfold normalizeSkillLevel. cbn [skill_confidence skill_level].
  destruct (indexOf_levels_cases level) as
    [[-> Hi]|[[-> Hi]|[[-> Hi]|[[-> Hi]|[Hn Hi]]]]];
    rewrite ?Hi;
    destruct (Qlt_le_dec confidence 0.3) as [H3|H3];
    destruct (Qlt_le_dec confidence 0.6) as [H6|H6];
    destruct (Qlt_le_dec 0.9 confidence) as [H9|H9];
    cbn;
    repeat match goal with |- _ /\ _ => split end;
    try (intros; exfalso; lra);
    try (intros; reflexivity);
    try (now auto 6);
    try (intros; lia);
    try (intros; exfalso; auto; fail);
    try (intros ? ? Hin; exfalso; apply Hn; exact Hin);
    try (intros ? ? Hin; exfalso; apply Hin; tauto).
Qed.

(** X3.  The level derived from the usage of a language is one of the four
    levels and does not fall when both the repository count and the total
    size grow.  Many repositories of little size, or much size in few
    repositories, stay at beginner. *)
Theorem calculateLanguageLevel_monotone (a b : LangData) :
  In (calculateLanguageLevel a) levels /\
  ((a.(ld_repoCount) <= b.(ld_repoCount))%Z ->
   (a.(ld_totalSize) <= b.(ld_totalSize))%Z ->
   (indexOf levels (calculateLanguageLevel a)
    <= indexOf levels (calculateLanguageLevel b))%Z) /\
  ((a.(ld_totalSize) <= 1000)%Z \/ (a.(ld_repoCount) < 3)%Z ->
   calculateLanguageLevel a = "beginner").
Proof.
  unfold calculateLanguageLevel. cbv zeta.
  destruct a as [na ca sa la], b as [nb cb sb lb].
  cbn [ld_repoCount ld_totalSize].
  repeat match goal with
         | |- context [(?x >=? ?y)%Z] =>
             let E := fresh "E" in
             destruct (Z.geb_spec x y) as [E|E]
         | |- context [(?x >? ?y)%Z] =>
             let E := fresh "E" in
             destruct (Z.gtb_spec x y) as [E|E]
         end;
    cbn [andb];
    (split; [simpl; tauto | split; [intros; try lia; vm_compute; discriminate
                                   | intros [H|H]; try reflexivity; lia]]).
Qed.

End LevelFacts.

(** ** Scoring factors *)

Section FactorFacts.

Local Open Scope Q_scope.






(** X5.  The freshness factor is 0 without a creation time and 1 for an
    issue created at the time of evaluation.  It does not fall when the
    creation time is later, it is 0 exactly from 30 days of age on, and for
    an age from 0 up to 30 days it is 1 minus the age over 30 days. *)
Theorem calculateFreshnessScore_decay (now c1 c2 : Z) :
  calculateFreshnessScore now None == 0 /\
  calculateFreshnessScore now (Some now) == 1 /\
  ((c1 <= c2)%Z ->
   calculateFreshnessScore now (Some c1) <= calculateFreshnessScore now (Some c2)) /\
  (calculateFreshnessScore now (Some c1) == 0 <-> (2592000000 <= now - c1)%Z) /\
  ((now - c1 <= 2592000000)%Z ->
   calculateFreshnessScore now (Some c1)
   == 1 - inject_Z (now - c1) / 2592000000).
Proof.
  assert (Hform : forall c,
            calculateFreshnessScore now (Some c)
            = Qmax 0 (1 - inject_Z (now - c) / msPerDay / 30)) by reflexivity.
  assert (Hlin : forall q : Q,
            1 - q / msPerDay / 30 == 1 - q * (1 # 2592000000)).
  { intro q. unfold msPerDay. field. }
  split; [reflexivity|]. split.
  - rewrite Hform, Z.sub_diag. reflexivity.
  - split; [|split].
    + intro Hle. rewrite !Hform. apply Q.max_le_compat_l.
      rewrite !Hlin.
      assert (H : inject_Z (now - c2) <= inject_Z (now - c1))
        by (rewrite <- Zle_Qle; lia).
      revert H. generalize (inject_Z (now - c2)), (inject_Z (now - c1)).
      intros q2 q1 H. lra.
    + rewrite Hform, Hlin.
      rewrite (Zle_Qle 2592000000 (now - c1)).
      change (inject_Z 2592000000) with 2592000000.
      generalize (inject_Z (now - c1)). intro q. split.
      * intro H. apply Q.max_l_iff in H. lra.
      * intro H. apply Q.max_l. lra.
    + intro Hle. rewrite Hform, Hlin.
      rewrite Zle_Qle in Hle. change (inject_Z 2592000000) with 2592000000 in Hle.
      revert Hle. generalize (inject_Z (now - c1)). intros q Hle.
      rewrite Q.max_r by lra. field.
Qed.

End FactorFacts.

(** ** Invariants of the extraction *)

Section MapInvariantFacts.

Context {K V : Type} (eqb : K -> K -> bool).
Hypothesis eqb_eq : forall a b, eqb a b = true <-> a = b.

Lemma mapGet_In (m : list (K * V)) (k : K) (v : V) :
  mapGet eqb m k = Some v -> In (k, v) m.
Proof.
  induction m as [|[k' v'] m IH]; simpl; [discriminate|].
  destruct (eqb k' k) eqn:E.
  - apply eqb_eq in E. subst k'. intros [= ->]. now left.
  - intro H. right. now apply IH.
Qed.

Lemma mapGet_None_notin (m : list (K * V)) (k : K) :
  mapGet eqb m k = None -> ~ In k (map fst m).
Proof.
  induction m as [|[k' v'] m IH]; simpl; [tauto|].
  destruct (eqb k' k) eqn:E; [discriminate|].
  intros H [Hk|Hk]; [|now apply IH].
  subst k'. rewrite (proj2 (eqb_eq k k) eq_refl) in E. discriminate.
Qed.

Lemma mapSet_keys_absent (m : list (K * V)) (k : K) (v : V) :
  mapGet eqb m k = None -> map fst (mapSet eqb m k v) = (map fst m ++ [k])%list.
Proof.
  induction m as [|[k' v'] m IH]; simpl; [reflexivity|].
  destruct (eqb k' k); [discriminate|].
  intro H. simpl. now rewrite IH.
Qed.

Lemma Forall_mapSet (P : K * V -> Prop) (m : list (K * V)) (k : K) (v : V) :
  Forall P m -> P (k, v) -> Forall P (mapSet eqb m k v).
Proof.
  intros Hm Hv. induction m as [|[k' v'] m IH]; simpl.
  - now constructor.
  - inversion Hm as [|? ? Hhd Htl]; subst.
    destruct (eqb k' k) eqn:E.
    + apply eqb_eq in E. subst k'. now constructor.
    + constructor; [exact Hhd | now apply IH].
Qed.

Lemma mapSet_NoDup (m : list (K * V)) (k : K) (v : V) :
  NoDup (map fst m) -> NoDup (map fst (mapSet eqb m k v)).
Proof.
  intro Hnd. destruct (mapGet eqb m k) as [v0|] eqn:G.
  - now rewrite (mapSet_keys_present eqb m k v v0 G).
  - rewrite (mapSet_keys_absent m k v G).
    apply NoDup_app; [exact Hnd | repeat constructor; easy |].
    intros x Hx [Hk|[]]. subst x. now apply (mapGet_None_notin m k G).
Qed.

Lemma mapSet_nonempty (m : list (K * V)) (k : K) (v : V) :
  mapSet eqb m k v <> [].
Proof.
  destruct m as [|[k' v'] m]; simpl; [discriminate|].
  destruct (eqb k' k); discriminate.
Qed.

End MapInvariantFacts.

Section SkillInvariants.

Import Checks.
Local Open Scope Q_scope.

Lemma skillsOk_nil : skillsOk [].
Proof. split; constructor. Qed.

(** An observation with a valid level and a confidence in (0, 1] keeps the
    skills map well formed. *)
Lemma addSkill_ok (m : SkillsMap) (name : value) (level : string)
    (confidence : Q) (source : string) :
  skillsOk m -> In level levels -> 0 < confidence -> confidence <= 1 ->
  skillsOk (addSkill m name level confidence source).
Proof.
  intros [Hnd Hall] Hlevel Hc0 Hc1. unfold addSkill.
  destruct (truthy (normalizeSkillName name)) eqn:Ht; cbn [negb];
    [|now split].
  destruct (mapGet value_eqb m (normalizeSkillName name)) as [existing|] eqn:G.
  - apply (mapGet_In _ value_eqb_eq) in G.
    rewrite Forall_forall in Hall. pose proof (Hall _ G) as (Hn & _ & Hl & Hc).
    cbn [fst snd] in Hn, Hl, Hc.
    split; [now apply (mapSet_NoDup _ value_eqb_eq)|].
    apply (Forall_mapSet _ value_eqb_eq); [now apply Forall_forall|].
    unfold skillEntryOk.
    cbn [fst snd skill_name skill_level skill_confidence].
    split; [exact Hn|]. split; [exact Ht|]. split.
    + destruct (_ >? _)%Z; assumption.
    + split.
      * apply Qlt_shift_div_l; lra.
      * apply Qle_shift_div_r; lra.
  - split; [now apply (mapSet_NoDup _ value_eqb_eq)|].
    apply (Forall_mapSet _ value_eqb_eq); [exact Hall|].
    unfold skillEntryOk.
    cbn [fst snd skill_name skill_level skill_confidence]. auto.
Qed.

Lemma addSkills_ok (names : list value) (level : string) (confidence : Q)
    (source : string) :
  In level levels -> 0 < confidence -> confidence <= 1 ->
  forall m, skillsOk m -> skillsOk (addSkills m names level confidence source).
Proof.
  intros Hl H0 H1. unfold addSkills.
  induction names as [|n names IH]; intros m Hm; [exact Hm|].
  cbn [fold_left]. apply IH. now apply addSkill_ok.
Qed.

Lemma levels_beginner : In "beginner" levels.
Proof. simpl; auto. Qed.

Lemma levels_intermediate : In "intermediate" levels.
Proof. simpl; auto. Qed.

Lemma calculateLanguageLevel_in_levels (l : LangData) :
  In (calculateLanguageLevel l) levels.
Proof.
  unfold calculateLanguageLevel. cbv zeta.
  repeat match goal with
         | |- context [if ?b then _ else _] => destruct b
         end; simpl; auto.
Qed.

Lemma normalizeSkillLevel_in_levels (skill : Skill) :
  In (normalizeSkillLevel skill) levels.
Proof.
  unfold normalizeSkillLevel.
  destruct (indexOf_levels_cases (skill_level skill)) as
    [[_ Hi]|[[_ Hi]|[[_ Hi]|[[_ Hi]|[_ Hi]]]]]; rewrite Hi;
    repeat match goal with
           | |- context [Qlt_le_dec ?a ?b] => destruct (Qlt_le_dec a b)
           end; cbn; auto.
Qed.

Lemma analyzeCommits_ok (commits : list Commit) :
  forall m m', skillsOk m -> analyzeCommits m commits = Ok m' -> skillsOk m'.
Proof.
  induction commits as [|c commits IH]; intros m m' Hm; cbn [analyzeCommits].
  - now intros [= <-].
  - destruct (commit_message c); [|discriminate].
    apply IH. apply addSkills_ok; [apply levels_intermediate | | | exact Hm];
      [reflexivity | discriminate].
Qed.

Lemma analyzeEvent_ok (event : Event) (m m' : SkillsMap) :
  skillsOk m -> analyzeEvent m event = Ok m' -> skillsOk m'.
Proof.
  intro Hm. unfold analyzeEvent.
  match goal with
  | |- bind ?c _ = _ -> _ => destruct c as [m1|] eqn:E
  end; cbn [bind]; [|discriminate].
  assert (Hm1 : skillsOk m1).
  { destruct (String.eqb _ "PushEvent").
    - destruct (event_payload event) as [p|]; [|discriminate].
      destruct (payload_commits p).
      + eapply analyzeCommits_ok; eassumption.
      + now injection E as <-.
    - now injection E as <-. }
  intros [= <-].
  destruct (event_repo event) as [[[n|]]|]; try exact Hm1.
  destruct (String.eqb n ""); [exact Hm1|].
  apply addSkills_ok; [apply levels_beginner | | | exact Hm1];
    [reflexivity | discriminate].
Qed.

Lemma analyzeEvents_ok (events : list Event) :
  forall m m', skillsOk m -> analyzeEvents m events = Ok m' -> skillsOk m'.
Proof.
  induction events as [|e events IH]; intros m m' Hm; cbn [analyzeEvents].
  - now intros [= <-].
  - destruct (analyzeEvent m e) as [m1|] eqn:E; cbn [bind]; [|discriminate].
    apply IH. eapply analyzeEvent_ok; eassumption.
Qed.

Lemma processRepo_skills_ok (st st' : SkillsMap * LanguagesMap) (repo : Repo) :
  skillsOk (fst st) -> processRepo st repo = Ok st' -> skillsOk (fst st').
Proof.
  destruct st as [skills languages]. cbn [fst]. intro Hm. unfold processRepo.
  match goal with
  | |- bind ?c _ = _ -> _ => destruct c as [[skills1 languages1]|] eqn:E
  end; cbn [bind]; [|discriminate].
  assert (Hm1 : skillsOk skills1).
  { destruct (truthy (repo_language repo)).
    - destruct (repo_language repo); try discriminate.
      injection E as <- _.
      apply addSkill_ok; [exact Hm | apply calculateLanguageLevel_in_levels | |];
        [reflexivity | discriminate].
    - now injection E as <- _. }
  intros [= <-]. cbn [fst].
  apply addSkills_ok; [apply levels_intermediate | reflexivity | discriminate |].
  destruct (repo_topics repo); [|exact Hm1].
  apply addSkills_ok; [apply levels_intermediate | | | exact Hm1];
    [reflexivity | discriminate].
Qed.

Lemma processRepositories_skills_ok (repositories : list (option Repo)) :
  forall st st',
    skillsOk (fst st) -> processRepositories st repositories = Ok st' ->
    skillsOk (fst st').
Proof.
  induction repositories as [|[repo|] rest IH]; intros st st' Hm;
    cbn [processRepositories].
  - now intros [= <-].
  - destruct (processRepo st repo) as [st1|] eqn:E; cbn [bind]; [|discriminate].
    apply IH. eapply processRepo_skills_ok; eassumption.
  - now apply IH.
Qed.

Lemma merge_contributions_ok (contributionSkills : SkillsMap) :
  Forall skillEntryOk contributionSkills ->
  forall m, skillsOk m ->
    skillsOk
      (fold_left
         (fun m '(skillName, skillData) =>
            addSkill m skillName skillData.(skill_level)
              skillData.(skill_confidence) "contribution")
         contributionSkills m).
Proof.
  induction 1 as [|[k e] rest (_ & _ & Hl & Hc0 & Hc1) _ IH]; intros m Hm;
    [exact Hm|].
  cbn [fold_left]. apply IH. cbn [snd] in Hl, Hc0, Hc1.
  now apply addSkill_ok.
Qed.

Lemma addDefaultSkills_ok (m : SkillsMap) : skillsOk m -> skillsOk (addDefaultSkills m).
Proof.
  intro Hm. unfold addDefaultSkills, defaults. cbn [fold_left].
  repeat (apply addSkill_ok; [| apply levels_beginner | reflexivity | discriminate]).
  exact Hm.
Qed.

Lemma finalSkills_ok (m : SkillsMap) :
  skillsOk m ->
  NoDup (map skill_name (finalSkills m)) /\
  Forall
    (fun skill =>
       truthy skill.(skill_name) = true /\
       In skill.(skill_level) levels /\
       0 < skill.(skill_confidence) /\ skill.(skill_confidence) <= 1)
    (finalSkills m) /\
  length (finalSkills m) = length m.
Proof.
  intros [Hnd Hall]. unfold finalSkills, mapValues.
  split; [|split].
  - rewrite !map_map. cbn [skill_name].
    replace (map (fun x => skill_name (snd x)) m) with (map fst m); [exact Hnd|].
    apply map_ext_in. intros [k e] Hin.
    rewrite Forall_forall in Hall. now destruct (Hall _ Hin) as (-> & _).
  - rewrite Forall_forall. intros skill Hin.
    rewrite map_map in Hin. apply in_map_iff in Hin.
    destruct Hin as ([k e] & <- & Hin).
    rewrite Forall_forall in Hall. destruct (Hall _ Hin) as (Hn & Ht & _ & Hc0 & Hc1).
    cbn [fst snd] in *.
    cbn [skill_name skill_level skill_confidence].
    split; [now rewrite Hn|]. split; [apply normalizeSkillLevel_in_levels|].
    split.
    + apply Q.min_glb_lt; lra.
    + apply Q.le_min_r.
  - now rewrite !length_map.
Qed.

End SkillInvariants.

Section ExtractorInvariantTheorems.

Import Checks.
Local Open Scope Q_scope.

Lemma extractUserSkillsBody_skills (user : option User)
    (repositories : option (list (option Repo)))
    (contributions : option (list Event)) (result : Skillset) :
  extractUserSkillsBody user repositories contributions = Ok result ->
  exists m, skillsOk m /\ m <> [] /\ result.(out_skills) = finalSkills m.
Proof.
  unfold extractUserSkillsBody.
  destruct user as [u|]; [|discriminate].
  destruct repositories as [repositories|]; [|discriminate].
  match goal with
  | |- context [processRepositories (?sk, []) repositories] =>
      assert (H0 : skillsOk sk);
      [| destruct (processRepositories (sk, []) repositories)
           as [[skills languages]|] eqn:E ]
  end.
  { destruct repositories; [|apply skillsOk_nil].
    destruct (bio u) as [b|]; [|apply skillsOk_nil].
    destruct (String.eqb b ""); [apply skillsOk_nil|].
    apply addSkills_ok; [apply levels_beginner | reflexivity | discriminate
                        | apply skillsOk_nil]. }
  2: discriminate.
  cbn [bind].
  apply processRepositories_skills_ok in E; [|exact H0]. cbn [fst] in E.
  assert (Hfinish : forall sk, skillsOk sk ->
            exists m, skillsOk m /\ m <> [] /\
              finalSkills match sk with [] => addDefaultSkills sk | _ => sk end
              = finalSkills m).
  { intros sk Hsk. destruct sk as [|entry sk].
    - exists (addDefaultSkills []). split; [now apply addDefaultSkills_ok|].
      split; [discriminate | reflexivity].
    - exists (entry :: sk). split; [exact Hsk|]. split; [discriminate | reflexivity]. }
  destruct contributions as [[|event events]|]; cbn [bind].
  - intros [= <-]. apply Hfinish, E.
  - destruct (analyzeContributions (event :: events)) as [cs|] eqn:Ec;
      cbn [bind]; [|discriminate].
    intros [= <-]. cbn [out_skills]. apply Hfinish.
    apply analyzeEvents_ok in Ec; [|apply skillsOk_nil].
    apply merge_contributions_ok; [apply Ec | exact E].
  - intros [= <-]. apply Hfinish, E.
Qed.

(** X6.  Whatever the input, the skills that [extractUserSkills] returns
    are not empty, their names are truthy and pairwise distinct, their levels
    are among beginner, intermediate, advanced and expert, and their
    confidences lie in (0, 1]. *)
Theorem extractUserSkills_skills_wellformed (user : option User)
    (repositories : option (list (option Repo)))
    (contributions : option (list Event)) :
  exists result,
    extractUserSkills user repositories contributions = Ok result /\
    result.(out_skills) <> [] /\
    NoDup (map skill_name result.(out_skills)) /\
    Forall
      (fun skill =>
         truthy skill.(skill_name) = true /\
         In skill.(skill_level) levels /\
         0 < skill.(skill_confidence) /\ skill.(skill_confidence) <= 1)
      result.(out_skills).
Proof.
  unfold extractUserSkills.
  destruct (extractUserSkillsBody user repositories contributions)
    as [result|] eqn:E; cbn [tryCatch].
  - exists result. split; [reflexivity|].
    destruct (extractUserSkillsBody_skills _ _ _ _ E) as (m & Hm & Hne & ->).
    destruct (finalSkills_ok m Hm) as (Hnd & Hall & Hlen).
    split; [|split; assumption].
    intro H. rewrite H in Hlen. destruct m; [contradiction | discriminate].
  - exists getDefaultSkillset. split; [reflexivity|].
    split; [discriminate|]. split.
    + cbn. repeat constructor; cbn; intuition discriminate.
    + cbn. repeat constructor; cbn; auto; discriminate.
Qed.

End ExtractorInvariantTheorems.

Section LanguageInvariants.

Import Checks.

Let counts (m : LanguagesMap) : Z :=
  fold_right (fun entry acc => (ld_repoCount (snd entry) + acc)%Z) 0%Z m.

Lemma counts_mapSet (m : LanguagesMap) (k : string) (v : LangData) :
  counts (mapSet String.eqb m k v)
  = (counts m
     - match mapGet String.eqb m k with
       | Some old => old.(ld_repoCount)
       | None => 0
       end
     + v.(ld_repoCount))%Z.
Proof.
  unfold counts. induction m as [|[k' v'] m IH]; simpl.
  - lia.
  - destruct (String.eqb k' k); simpl; lia.
Qed.

Lemma processRepo_languages (st st' : SkillsMap * LanguagesMap) (repo : Repo) :
  languagesOk (snd st) -> processRepo st repo = Ok st' ->
  languagesOk (snd st') /\
  counts (snd st') = (counts (snd st) + languageRepos [Some repo])%Z.
Proof.
  destruct st as [skills languages]. cbn [snd]. intros [Hnd Hall].
  unfold processRepo, languageRepos. cbn [fold_right].
  destruct (truthy (repo_language repo)) eqn:Ht.
  - destruct (repo_language repo) as [| |language| |n]; try discriminate.
    cbn [bind]. intros [= <-]. cbn [snd].
    rewrite counts_mapSet. cbn [ld_repoCount].
    split.
    + split; [now apply (mapSet_NoDup _ String.eqb_eq)|].
      apply (Forall_mapSet _ String.eqb_eq); [exact Hall|].
      unfold langEntryOk. cbn [fst snd ld_name ld_repoCount].
      destruct (mapGet String.eqb languages (toLowerCase language))
        as [old|] eqn:G.
      * apply (mapGet_In _ String.eqb_eq) in G.
        rewrite Forall_forall in Hall. destruct (Hall _ G) as [Hk Hc].
        cbn [fst snd] in Hk, Hc. split; [exact Hk | lia].
      * cbn [ld_name ld_repoCount]. split; [reflexivity | lia].
    + destruct (mapGet String.eqb languages (toLowerCase language));
        cbn [ld_repoCount]; lia.
  - cbn [bind]. intros [= <-]. cbn [snd]. split; [now split | lia].
Qed.

Lemma languageRepos_cons (repo : option Repo) (rest : list (option Repo)) :
  languageRepos (repo :: rest) = (languageRepos [repo] + languageRepos rest)%Z.
Proof.
  unfold languageRepos. cbn [fold_right].
  destruct repo as [r|]; [|lia].
  destruct (truthy (repo_language r)); lia.
Qed.

Lemma processRepositories_languages (repositories : list (option Repo)) :
  forall st st',
    languagesOk (snd st) -> processRepositories st repositories = Ok st' ->
    languagesOk (snd st') /\
    counts (snd st') = (counts (snd st) + languageRepos repositories)%Z.
Proof.
  induction repositories as [|[repo|] rest IH]; intros st st' Hst;
    cbn [processRepositories].
  - intros [= <-]. split; [exact Hst | cbn; lia].
  - destruct (processRepo st repo) as [st1|] eqn:E; cbn [bind]; [|discriminate].
    destruct (processRepo_languages _ _ _ Hst E) as [H1 C1].
    intro H. destruct (IH _ _ H1 H) as [H2 C2]. split; [exact H2|].
    rewrite C2, C1, (languageRepos_cons (Some repo) rest). lia.
  - intro H. destruct (IH _ _ Hst H) as [H2 C2]. split; [exact H2|].
    rewrite C2, (languageRepos_cons None rest). cbn. lia.
Qed.

Lemma extractUserSkillsBody_run (user : option User)
    (repositories : list (option Repo)) (contributions : option (list Event))
    (result : Skillset) :
  extractUserSkillsBody user (Some repositories) contributions = Ok result ->
  exists skills0 skills languages,
    processRepositories (skills0, []) repositories = Ok (skills, languages) /\
    result.(out_languages) = finalLanguages languages.
Proof.
  unfold extractUserSkillsBody.
  destruct user as [u|]; [|discriminate].
  match goal with
  | |- context [processRepositories (?sk, []) repositories] => set (sk0 := sk)
  end.
  destruct (processRepositories (sk0, []) repositories)
    as [[skills languages]|] eqn:E; cbn [bind]; [|discriminate].
  intro H. exists sk0, skills, languages. split; [exact E|].
  destruct contributions as [[|event events]|]; cbn [bind] in H.
  - now injection H as <-.
  - destruct (analyzeContributions (event :: events)); cbn [bind] in H;
      [|discriminate].
    now injection H as <-.
  - now injection H as <-.
Qed.

(** X7.  In the technology-usage list of a completed extraction no two
    entries have the same name up to letter case, every entry counts at least
    one repository, the counts add up to the number of repositories that have
    a language, and so there are at most that many entries. *)
Theorem extractUserSkills_languages_wellformed (user : option User)
    (repositories : list (option Repo)) (contributions : option (list Event))
    (result : Skillset) :
  extractUserSkillsBody user (Some repositories) contributions = Ok result ->
  let usages := result.(out_languages) in
  extractUserSkills user (Some repositories) contributions = Ok result /\
  NoDup (map (fun usage => toLowerCase usage.(lu_name)) usages) /\
  Forall (fun usage => exists n, usage.(lu_repoCount) = Some n /\ (1 <= n)%Z)
    usages /\
  sumRepoCounts usages = languageRepos repositories /\
  (Z.of_nat (length usages) <= languageRepos repositories)%Z.
Proof.
  intros Hbody usages.
  split; [unfold extractUserSkills; now rewrite Hbody|].
  destruct (extractUserSkillsBody_run _ _ _ _ Hbody)
    as (skills0 & skills & languages & Hrun & Hout).
  assert (H0 : languagesOk (snd (skills0, @nil (string * LangData))))
    by (split; constructor).
  destruct (processRepositories_languages _ _ _ H0 Hrun) as [[Hnd Hall] Hcount].
  cbn [snd] in Hnd, Hall, Hcount. cbn in Hcount.
  subst usages. rewrite Hout. unfold finalLanguages, mapValues.
  rewrite Forall_forall in Hall.
  assert (Hsum : forall total (m : LanguagesMap),
            sumRepoCounts
              (map (fun lang =>
                      {| lu_name := ld_name lang;
                         lu_repoCount := Some (ld_repoCount lang);
                         lu_totalSize := Some (ld_totalSize lang);
                         lu_linesOfCode := ld_linesOfCode lang;
                         lu_percentage :=
                           if (total >? 0)%Z
                           then (inject_Z (ld_totalSize lang) / inject_Z total * 100)%Q
                           else 0%Q |})
                 (map snd m))
            = counts m).
  { intros total m. induction m as [|[k l] m IH]; [reflexivity|].
    cbn [map snd]. unfold sumRepoCounts in *. cbn [fold_right lu_repoCount].
    rewrite IH. reflexivity. }
  assert (Hlen : forall m : LanguagesMap,
            (forall entry, In entry m -> langEntryOk entry) ->
            (Z.of_nat (length m) <= counts m)%Z).
  { induction m as [|[k l] m IH]; intro Hm; [cbn; lia|].
    destruct (Hm (k, l) (or_introl eq_refl)) as [_ Hc]. cbn [snd] in Hc.
    assert (IH' := IH (fun e He => Hm e (or_intror He))).
    cbn [length counts fold_right snd]. unfold counts in IH'. lia. }
  split; [|split; [|split]].
  - rewrite !map_map. cbn [lu_name].
    replace (map (fun x => toLowerCase (ld_name (snd x))) languages)
      with (map fst languages); [exact Hnd|].
    apply map_ext_in. intros [k l] Hin. now destruct (Hall _ Hin) as [-> _].
  - rewrite Forall_forall. intros usage Hin.
    rewrite map_map in Hin. apply in_map_iff in Hin.
    destruct Hin as ([k l] & <- & Hin).
    destruct (Hall _ Hin) as [_ Hc]. cbn [snd] in *.
    exists (ld_repoCount l). now split.
  - now rewrite Hsum, Hcount.
  - rewrite !length_map, <- Hcount. now apply Hlen.
Qed.

(** Two repositories, each with a language of its own. *)
Lemma extractUserSkills_languages_wellformed_witness :
  exists result,
    extractUserSkills (Some Examples.bareProfile)
      (Some Examples.sizedRepositories) None = Ok result /\
    sumRepoCounts result.(out_languages) = 2%Z.
Proof.
  eexists.
  pose proof (extractUserSkills_languages_wellformed (Some Examples.bareProfile)
                Examples.sizedRepositories None _ eq_refl)
    as (Hrun & _ & _ & Hsum & _).
  split; [exact Hrun | exact Hsum].
Defined.

End LanguageInvariants.

Section ExtractorErrors.

Import Checks.








End ExtractorErrors.

(** ** Ranking *)

Section RankingFacts.

Import Matching.
Local Open Scope Q_scope.

(** [a] may stand before [b] in a ranking. *)
Let before (a b : Match) : Prop := b.(match_score) <= a.(match_score).

Lemma insertByScore_perm (x : Match) (l : list Match) :
  Permutation (insertByScore x l) (x :: l).
Proof.
  induction l as [|y l IH]; cbn [insertByScore]; [reflexivity|].
  destruct (Qlt_le_dec _ _); [|reflexivity].
  rewrite IH. apply perm_swap.
Qed.

Lemma sortByScore_perm (l : list Match) : Permutation (sortByScore l) l.
Proof.
  induction l as [|x l IH]; cbn [sortByScore]; [reflexivity|].
  rewrite insertByScore_perm. now constructor.
Qed.

Lemma insertByScore_sorted (x : Match) (l : list Match) :
  StronglySorted before l -> StronglySorted before (insertByScore x l).
Proof.
  induction 1 as [|y l Hs IH Hy]; cbn [insertByScore].
  - repeat constructor.
  - destruct (Qlt_le_dec (match_score x) (match_score y)) as [Hlt|Hle].
    + constructor; [exact IH|].
      rewrite Forall_forall. intros z Hz.
      apply (Permutation_in _ (insertByScore_perm x l)) in Hz.
      destruct Hz as [<-|Hz].
      * unfold before. lra.
      * rewrite Forall_forall in Hy. now apply Hy.
    + constructor; [now constructor|].
      constructor; [exact Hle|].
      rewrite Forall_forall in Hy |- *. intros z Hz.
      specialize (Hy z Hz). unfold before in *. lra.
Qed.

Lemma sortByScore_sorted (l : list Match) : StronglySorted before (sortByScore l).
Proof.
  induction l as [|x l IH]; cbn [sortByScore]; [constructor|].
  now apply insertByScore_sorted.
Qed.

Lemma sorted_split (l1 l2 : list Match) :
  StronglySorted before (l1 ++ l2) ->
  StronglySorted before l1 /\
  forall a b, In a l1 -> In b l2 -> before a b.
Proof.
  induction l1 as [|x l1 IH]; cbn [app]; intro H.
  - split; [constructor | intros a b []].
  - inversion H as [|? ? Hs Hx]; subst.
    destruct (IH Hs) as [H1 H2]. split.
    + constructor; [exact H1|].
      rewrite Forall_forall in Hx |- *. intros z Hz. apply Hx.
      apply in_or_app. now left.
    + intros a b [<-|Ha] Hb; [|now apply H2].
      rewrite Forall_forall in Hx. apply Hx. apply in_or_app. now right.
Qed.

Lemma sliceTo_prefix {A} (xs : list A) (limit : Z) :
  exists n, sliceTo xs limit = firstn n xs /\
            ((0 <= limit)%Z -> n = Z.to_nat limit).
Proof.
  unfold sliceTo. destruct (Z.ltb_spec limit 0).
  - eexists. split; [reflexivity | lia].
  - eexists. split; [reflexivity | reflexivity].
Qed.

(** X9.  [findMatchingIssues] never throws.  For a user without skills the
    result is empty.  Otherwise every match in the result is one of the given
    issues with its score and reasons, scores above 0.2, and the result is in
    order of falling score; for a limit that is not negative it has at most
    that many entries, and every issue scoring above 0.2 that is left out
    scores no more than each match that is in. *)
Theorem findMatchingIssues_ranked (now : Z) (user : User) (issues : list Issue)
    (limit : Z) :
  exists matches,
    findMatchingIssues now user issues limit = Ok matches /\
    (user.(skills) = None \/ user.(skills) = Some [] -> matches = []) /\
    Forall
      (fun m =>
         In m.(match_issue) issues /\
         m.(match_score) = calculateMatchScore now user m.(match_issue) /\
         m.(match_reasons) = getMatchReasons user m.(match_issue) /\
         0.2 < m.(match_score))
      matches /\
    StronglySorted (fun a b => b.(match_score) <= a.(match_score)) matches /\
    ((0 <= limit)%Z -> (Z.of_nat (length matches) <= limit)%Z) /\
    ((0 <= limit)%Z ->
     user.(skills) <> None -> user.(skills) <> Some [] ->
     forall issue,
       In issue issues -> 0.2 < calculateMatchScore now user issue ->
       (exists m, In m matches /\ m.(match_issue) = issue) \/
       (forall m, In m matches ->
                  calculateMatchScore now user issue <= m.(match_score))).
Proof.
  unfold findMatchingIssues.
  destruct (skills user) as [[|skill rest]|] eqn:Hs; cbn [tryCatch].
  - exists []. split; [reflexivity|]. split; [reflexivity|].
    split; [constructor|]. split; [constructor|].
    split; [intro; cbn; lia|]. intros _ _ H. now elim H.
  - set (score := fun issue => calculateMatchScore now user issue).
    set (mk := fun issue =>
                 {| match_issue := issue;
                    match_score := calculateMatchScore now user issue;
                    match_reasons := getMatchReasons user issue |}).
    set (keep := fun m : Match =>
                   if Qlt_le_dec 0.2 (match_score m) then true else false).
    set (sorted := sortByScore (filter keep (map mk issues))).
    destruct (sliceTo_prefix sorted limit) as (n & Hslice & Hn).
    exists (sliceTo sorted limit). split; [reflexivity|].
    rewrite Hslice.
    assert (Hin : forall m, In m sorted <->
                            (exists issue, In issue issues /\ m = mk issue
                                           /\ 0.2 < score issue)).
    { intro m. unfold sorted. split.
      - intro H. apply (Permutation_in _ (sortByScore_perm _)) in H.
        apply filter_In in H. destruct H as [H Hk].
        apply in_map_iff in H. destruct H as (issue & <- & Hi).
        exists issue. split; [exact Hi|]. split; [reflexivity|].
        unfold keep in Hk. cbn [mk match_score] in Hk.
        destruct (Qlt_le_dec _ _); [assumption | discriminate].
      - intros (issue & Hi & -> & Hsc).
        apply (Permutation_in _ (Permutation_sym (sortByScore_perm _))).
        apply filter_In. split; [apply in_map_iff; now exists issue|].
        unfold keep. cbn [mk match_score].
        destruct (Qlt_le_dec _ _); [reflexivity | unfold score in Hsc; lra]. }
    pose proof (sortByScore_sorted (filter keep (map mk issues))) as Hsorted.
    fold sorted in Hsorted.
    rewrite <- (firstn_skipn n sorted) in Hsorted.
    destruct (sorted_split _ _ Hsorted) as [Hfirst Hrest].
    split; [intros [H|H]; discriminate|].
    split; [|split; [exact Hfirst | split]].
    + rewrite Forall_forall. intros m Hm.
      assert (Hm' : In m sorted).
      { rewrite <- (firstn_skipn n sorted). apply in_or_app. now left. }
      apply Hin in Hm'. destruct Hm' as (issue & Hi & -> & Hsc).
      cbn [mk match_issue match_score match_reasons]. auto.
    + intro Hl. rewrite length_firstn, (Hn Hl). lia.
    + intros Hl _ _ issue Hi Hsc.
      assert (Hm : In (mk issue) sorted) by (apply Hin; now exists issue).
      rewrite <- (firstn_skipn n sorted) in Hm.
      apply in_app_or in Hm. destruct Hm as [Hm|Hm].
      * left. exists (mk issue). split; [exact Hm | reflexivity].
      * right. intros m Hm'. exact (Hrest m (mk issue) Hm' Hm).
  - exists []. split; [reflexivity|]. split; [reflexivity|].
    split; [constructor|]. split; [constructor|].
    split; [intro; cbn; lia|]. intros _ H. now elim H.
Qed.

End RankingFacts.

(** ** Reasons *)

Section ReasonFacts.

Import Matching Checks.
Local Open Scope Q_scope.









End ReasonFacts.

(** ** Issue analysis *)

Section AnalysisFacts.

Import Checks.

(** X11.  The effort estimate lies between 1 and 10 hours, and between 1
    and 8 unless the difficulty is "expert": the clamp to [1, 24] never
    changes the value.  Of the text only the number of spaces matters. *)
Theorem estimateHours_range (difficulty text : string) (labels : list string) :
  let hours := estimateHours difficulty text labels in
  let words := Z.of_nat (splitCount " " text) in
  let base :=
    if String.eqb difficulty "beginner" then 2%Z
    else if String.eqb difficulty "advanced" then 6%Z
    else if String.eqb difficulty "expert" then 8%Z else 4%Z in
  (1 <= hours <= 10)%Z /\
  (difficulty <> "expert" -> (hours <= 8)%Z) /\
  hours = (if (words >? 300)%Z then base + 2
           else if (words <? 50)%Z then base - 1 else base)%Z.
Proof.
  unfold estimateHours. cbv zeta.
  destruct (String.eqb difficulty "beginner");
    [|destruct (String.eqb difficulty "advanced");
      [|destruct (String.eqb difficulty "expert") eqn:E;
        [apply String.eqb_eq in E|]]];
    destruct (_ >? 300)%Z; try destruct (_ <? 50)%Z;
    (split; [lia | split; [intro; try lia; contradiction | lia]]).
Qed.

Lemma estimateHours_bounds_aux (difficulty text : string) (labels : list string) :
  difficulty <> "expert" ->
  (1 <= estimateHours difficulty text labels <= 8)%Z.
Proof.
  intro Hne. unfold estimateHours. cbv zeta.
  destruct (String.eqb difficulty "beginner");
    [|destruct (String.eqb difficulty "advanced");
      [|destruct (String.eqb difficulty "expert") eqn:E;
        [apply String.eqb_eq in E; contradiction|]]];
    destruct (_ >? 300)%Z; try destruct (_ <? 50)%Z; lia.
Qed.

Lemma textSkills_categories (text : string) :
  incl (textSkills text) categories.
Proof.
  unfold textSkills, categories.
  assert (G : forall ps acc,
            incl acc (map (fun p => VStr (snd p)) keywordPatterns) ->
            incl ps keywordPatterns ->
            incl (fold_left
                    (fun skills '(pattern, skill) =>
                       if patternTest pattern text
                       then setAdd skills (VStr skill) else skills)
                    ps acc)
                 (map (fun p => VStr (snd p)) keywordPatterns)).
  { induction ps as [|[p k] ps IH]; intros acc Hacc Hps; cbn [fold_left];
      [exact Hacc|].
    apply IH; [|intros x Hx; apply Hps; now right].
    destruct (patternTest p text); [|exact Hacc].
    unfold setAdd. destruct (existsb _ acc); [exact Hacc|].
    intros x Hx. apply in_app_or in Hx. destruct Hx as [Hx|[<-|[]]];
      [now apply Hacc|].
    apply in_map_iff. exists (p, k). split; [reflexivity|].
    apply Hps. now left. }
  apply G; [intros x [] | apply incl_refl].
Qed.

Lemma determineDifficulty_three (text : string) (labels : list string) :
  In (determineDifficulty text labels) ["beginner"; "intermediate"; "advanced"].
Proof.
  unfold determineDifficulty.
  repeat match goal with
         | |- context [if ?b then _ else _] => destruct b
         end; simpl; auto.
Qed.

Lemma lowerLabelNames_ok (labels : list GithubLabel) :
  isOk (lowerLabelNames labels)
  = forallb (fun l => match label_name l with Some _ => true | None => false end)
      labels.
Proof.
  induction labels as [|l labels IH]; cbn [lowerLabelNames forallb];
    [reflexivity|].
  destruct (label_name l); [|reflexivity].
  rewrite <- IH. destruct (lowerLabelNames labels); reflexivity.
Qed.

(** X12.  [analyzeIssueContent] never throws.  When the labels are missing
    or one of them has no name, the result is the fallback: intermediate, no
    skills, 4 hours.  Otherwise the difficulty is beginner, intermediate or
    advanced, the estimate lies between 1 and 8 hours, and the required
    skills are distinct, at most ten, each one of the nine keyword categories
    or the normalized repository language; the labels add none. *)
Theorem analyzeIssueContent_total (issue : GithubIssue) (repoInfo : RepoInfo) :
  exists analysis,
    analyzeIssueContent issue repoInfo = Ok analysis /\
    (labelsOk issue = false ->
     analysis = mkAnalysis "intermediate" [] 4) /\
    In analysis.(a_difficulty) ["beginner"; "intermediate"; "advanced"] /\
    (1 <= analysis.(a_estimatedHours) <= 8)%Z /\
    NoDup analysis.(a_requiredSkills) /\
    (length analysis.(a_requiredSkills) <= 10)%nat /\
    Forall
      (fun skill =>
         In skill categories \/
         skill = normalizeSkillName repoInfo.(repoInfo_language))
      analysis.(a_requiredSkills).
Proof.
  unfold analyzeIssueContent, labelsOk.
  destruct (gi_labels issue) as [labels|].
  2:{ eexists. split; [reflexivity|]. cbn.
      repeat split; auto; try lia; constructor. }
  rewrite <- lowerLabelNames_ok.
  destruct (lowerLabelNames labels) as [names|]; cbn [bind isOk].
  2:{ eexists. split; [reflexivity|]. cbn.
      repeat split; auto; try lia; constructor. }
  set (text := interpolate (gi_title issue) ++ " " ++ orEmpty (gi_body issue)).
  unfold extractRequiredSkills. rewrite labelSkills_strings. cbn [bind tryCatch].
  eexists. split; [reflexivity|].
  cbn [a_difficulty a_estimatedHours a_requiredSkills].
  split; [discriminate|].
  pose proof (determineDifficulty_three text names) as Hd.
  split; [exact Hd|].
  assert (Hskills :
            forall skills,
              skills = (if truthy (repoInfo_language repoInfo)
                        then
                          if truthy (normalizeSkillName (repoInfo_language repoInfo))
                          then setAdd (textSkills text)
                                 (normalizeSkillName (repoInfo_language repoInfo))
                          else textSkills text
                        else textSkills text) ->
              NoDup skills /\
              incl skills
                (normalizeSkillName (repoInfo_language repoInfo) :: categories)).
  { intros skills ->. pose proof (textSkills_NoDup text) as Hnd.
    pose proof (textSkills_categories text) as Hinc.
    destruct (truthy (repoInfo_language repoInfo));
      [destruct (truthy (normalizeSkillName _))|];
      try (split; [exact Hnd | now apply incl_tl]).
    split; [now apply setAdd_NoDup|].
    unfold setAdd. destruct (existsb _ _); [now apply incl_tl|].
    intros x Hx. apply in_app_or in Hx. destruct Hx as [Hx|[<-|[]]].
    - right. now apply Hinc.
    - now left. }
  destruct (Hskills _ eq_refl) as [Hnd Hinc].
  split; [|split; [exact Hnd | split]].
  - pose proof (estimateHours_bounds_aux (determineDifficulty text names) text names)
      as H.
    simpl in Hd. destruct Hd as [Hd|[Hd|[Hd|[]]]]; rewrite <- Hd in *;
      apply H; discriminate.
  - apply (NoDup_incl_length Hnd) in Hinc. exact Hinc.
  - rewrite Forall_forall. intros x Hx. apply Hinc in Hx.
    destruct Hx as [<-|Hx]; auto.
Qed.

End AnalysisFacts.

(** ** The aggregation job: stored record *)

Section PopularityFacts.

Import AggregatorData.
Local Open Scope Q_scope.






End PopularityFacts.

Section RepositoryInfoFacts.

Import AggregatorData Checks.

Lemma split_nonempty (sep : ascii) (s : string) : split sep s <> [].
Proof.
  destruct s as [|c t]; cbn [split]; [discriminate|].
  destruct (Ascii.eqb c sep); [discriminate|].
  destruct (split sep t); discriminate.
Qed.

Lemma split_without (sep : ascii) (s : string) :
  hasChar sep s = false -> split sep s = [s].
Proof.
  induction s as [|c t IH]; cbn [split hasChar]; [reflexivity|].
  destruct (Ascii.eqb c sep); [discriminate|].
  cbn [orb]. intro H. now rewrite (IH H).
Qed.

Lemma split_app (sep : ascii) (a b : string) :
  split sep (a ++ String sep b) = (split sep a ++ split sep b)%list.
Proof.
  induction a as [|c a IH]; cbn [append split].
  - now rewrite Ascii.eqb_refl.
  - destruct (Ascii.eqb c sep); [now rewrite IH|].
    rewrite IH. pose proof (split_nonempty sep a) as Hne.
    destruct (split sep a); [contradiction | reflexivity].
Qed.

Lemma lastTwo_app {A} (l : list A) (x y : A) : lastTwo (l ++ [x; y]) = [x; y].
Proof.
  unfold lastTwo. rewrite length_app. cbn [length].
  replace (length l + 2 - 2)%nat with (length l + 0)%nat by lia.
  rewrite skipn_app, Nat.add_0_r, skipn_all, Nat.sub_diag. reflexivity.
Qed.

(** X14.  For an issue whose [repository_url] ends in [/owner/repo], where
    neither part contains a slash, [extractRepositoryInfo] gives that owner
    and that name and the full name [owner/repo], and keeps the URL.  Without
    a [repository_url] it throws. *)
Theorem extractRepositoryInfo_owner_repo (githubIssue : RawIssue)
    (base owner repo : string) :
  githubIssue.(raw_repository_url)
  = Some (base ++ "/" ++ owner ++ "/" ++ repo) ->
  hasChar "/" owner = false -> hasChar "/" repo = false ->
  exists info,
    extractRepositoryInfo githubIssue = Ok info /\
    info.(info_owner) = Some owner /\
    info.(info_name) = Some repo /\
    info.(info_fullName) = owner ++ "/" ++ repo /\
    info.(info_url) = base ++ "/" ++ owner ++ "/" ++ repo /\
    (forall other,
       other.(raw_repository_url) = None ->
       extractRepositoryInfo other = Throw).
Proof.
  intros Hurl Ho Hr. unfold extractRepositoryInfo. rewrite Hurl.
  eexists. split; [reflexivity|].
  cbn [info_owner info_name info_fullName info_url].
  assert (Hparts : lastTwo (split "/" (base ++ "/" ++ owner ++ "/" ++ repo))
                   = [owner; repo]).
  { change (base ++ "/" ++ owner ++ "/" ++ repo)
      with (base ++ String "/" (owner ++ String "/" repo)).
    rewrite !split_app, (split_without _ _ Ho), (split_without _ _ Hr).
    apply lastTwo_app. }
  rewrite Hparts. cbn [nth_error interpolate].
  repeat split. intros other Hnone. now rewrite Hnone.
Qed.

Lemma extractRepositoryInfo_owner_repo_witness :
  exists info,
    extractRepositoryInfo AggregatorExamples.popularIssue = Ok info /\
    info.(info_owner) = Some "octo" /\
    info.(info_name) = Some "widgets" /\
    info.(info_fullName) = "octo/widgets".
Proof.
  destruct (extractRepositoryInfo_owner_repo AggregatorExamples.popularIssue
              "https://api.github.com/repos" "octo" "widgets"
              eq_refl eq_refl eq_refl) as (info & Hinfo & Ho & Hn & Hf & _).
  exists info. repeat split; assumption.
Defined.

End RepositoryInfoFacts.

Section ProcessIssuesFacts.

Import AggregatorData AggregatorChecks Checks.

Variable Store : Type.
Variable DocId : Type.
Variable findOne : Store -> Z -> completion (option DocId).
Variable findByIdAndUpdate : Store -> DocId -> IssueData -> completion Store.
Variable create : Store -> IssueData -> completion Store.

Let process := processAndStoreIssue Store DocId findOne findByIdAndUpdate create.
Let loop := processLoop Store DocId findOne findByIdAndUpdate create.

Lemma processAndStoreIssue_skipped (now : Z) (store : Store)
    (issue : option RawIssue) :
  skipped issue = true -> process now store issue = Ok store.
Proof.
  unfold process, processAndStoreIssue, skipped.
  destruct issue as [i|]; [|reflexivity].
  destruct (raw_id i) as [id|]; [|reflexivity].
  destruct (id =? 0)%Z; [reflexivity|].
  destruct (raw_pull_request i); [reflexivity | discriminate].
Qed.

Lemma processAndStoreIssue_unprocessable (now : Z) (store : Store)
    (issue : option RawIssue) :
  unprocessable issue = true -> process now store issue = Throw.
Proof.
  unfold process, processAndStoreIssue, unprocessable, skipped.
  destruct issue as [i|]; [|discriminate].
  destruct (raw_id i) as [id|]; [|discriminate].
  destruct (id =? 0)%Z; [discriminate|].
  destruct (raw_pull_request i); [discriminate|]. cbn [orb negb andb].
  unfold extractRepositoryInfo.
  destruct (raw_repository_url i); [discriminate|]. intros _.
  destruct (findOne store id); reflexivity.
Qed.

Lemma processLoop_count (now : Z) (issues : list (option RawIssue)) :
  forall count store,
    (count <= fst (loop now issues count store)
     <= count + Z.of_nat (length issues))%Z.
Proof.
  induction issues as [|i issues IH]; intros count store;
    unfold loop; cbn [processLoop fst length].
  - lia.
  - fold process. fold loop. destruct (process now store i) as [store1|].
    + specialize (IH (count + 1)%Z store1). lia.
    + specialize (IH count store). lia.
Qed.

Lemma processLoop_inert (now : Z) (issues : list (option RawIssue)) :
  forallb (fun i => skipped i || unprocessable i) issues = true ->
  forall count store,
    loop now issues count store
    = ((count + Z.of_nat (length (filter skipped issues)))%Z, store).
Proof.
  induction issues as [|i issues IH]; intros Hall count store;
    unfold loop; cbn [processLoop filter].
  - cbn. f_equal. lia.
  - fold process. fold loop. cbn [forallb] in Hall.
    apply andb_true_iff in Hall. destruct Hall as [Hi Hrest].
    destruct (skipped i) eqn:Hs.
    + rewrite (processAndStoreIssue_skipped now store i Hs).
      rewrite (IH Hrest). cbn [length]. f_equal. lia.
    + cbn [orb] in Hi. rewrite (processAndStoreIssue_unprocessable now store i Hi).
      now rewrite (IH Hrest).
Qed.

(** X15.  [processIssues] returns a count between 0 and the number of
    issues it was given.  Missing entries, entries without id and pull
    requests are counted although nothing is done for them; entries without
    [repository_url] are not counted; a batch of only such entries leaves the
    store as it is, whatever the store operations do. *)
Theorem processIssues_count (now : Z) (arg : issuesArg) (store : Store) :
  let result :=
    processIssues Store DocId findOne findByIdAndUpdate create now arg store in
  (0 <= fst result <= Z.of_nat (length (issuesOf arg)))%Z /\
  (forallb (fun i => skipped i || unprocessable i) (issuesOf arg) = true ->
   snd result = store /\
   fst result = Z.of_nat (length (filter skipped (issuesOf arg)))).
Proof.
  unfold processIssues.
  assert (G : forall issues,
            (0 <= fst (loop now issues 0%Z store) <= Z.of_nat (length issues))%Z /\
            (forallb (fun i => skipped i || unprocessable i) issues = true ->
             snd (loop now issues 0%Z store) = store /\
             fst (loop now issues 0%Z store)
             = Z.of_nat (length (filter skipped issues)))).
  { intro issues. split.
    - pose proof (processLoop_count now issues 0%Z store). lia.
    - intro H. rewrite (processLoop_inert now issues H). cbn [fst snd].
      split; [reflexivity | lia]. }
  destruct arg as [|issues|[items|]]; cbn [issuesOf]; try apply G.
  cbn. split; [lia|]. intros _. split; reflexivity.
Qed.

End ProcessIssuesFacts.

Lemma analyzeIssueContent_difficulty (issue : AIService.GithubIssue)
    (repoInfo : AIService.RepoInfo) :
  exists analysis,
    AIService.analyzeIssueContent issue repoInfo = Ok analysis /\
    In analysis.(AIService.a_difficulty) ["beginner"; "intermediate"; "advanced"].
Proof.
  unfold AIService.analyzeIssueContent.
  destruct (AIService.gi_labels issue) as [labels|].
  2:{ eexists. split; [reflexivity|]. cbn. auto. }
  destruct (AIService.lowerLabelNames labels) as [names|]; cbn [bind].
  2:{ eexists. split; [reflexivity|]. cbn. auto. }
  unfold AIService.extractRequiredSkills. rewrite labelSkills_strings.
  cbn [bind tryCatch].
  eexists. split; [reflexivity|].
  cbn [AIService.a_difficulty]. apply determineDifficulty_three.
Qed.

Section WrittenRecords.

Import AggregatorData AggregatorChecks.

Variable DocId : Type.
Variable findOne : list IssueData -> Z -> completion (option DocId).

(** What a written record has of the issue it was built from. *)
Let recordOf (now : Z) (i : RawIssue) (d : IssueData) : Prop :=
  raw_id i = Some (data_githubId d) /\
  data_githubId d <> 0%Z /\
  raw_pull_request i = false /\
  raw_repository_url i = Some (info_url (data_repository d)) /\
  data_isActive d = true /\
  data_createdAt d = raw_created_at i /\
  data_updatedAt d = raw_updated_at i /\
  data_lastActivity d = data_updatedAt d /\
  In (data_difficulty d) ["beginner"; "intermediate"; "advanced"] /\
  data_popularity d == calculatePopularity now i (data_repository d).

Let process :=
  processAndStoreIssue (list IssueData) DocId findOne logUpdate logCreate.
Let loop :=
  processLoop (list IssueData) DocId findOne logUpdate logCreate.

Lemma processAndStoreIssue_log (now : Z) (log : list IssueData)
    (issue : option RawIssue) :
  match process now log issue with
  | Ok log1 =>
      (skipped issue = true /\ log1 = log) \/
      (skipped issue = false /\
       exists i d, issue = Some i /\ log1 = app log [d] /\ recordOf now i d)
  | Throw => skipped issue = false
  end.
Proof.
  unfold process, processAndStoreIssue, skipped.
  destruct issue as [i|]; [|now left].
  destruct (raw_id i) as [id|] eqn:Hid; [|now left].
  destruct (id =? 0)%Z eqn:Hz; [now left|].
  destruct (raw_pull_request i) eqn:Hpr; [now left|]. cbn [orb].
  destruct (findOne log id) as [existing|]; cbn [bind]; [|reflexivity].
  unfold extractRepositoryInfo.
  destruct (raw_repository_url i) as [url|] eqn:Hurl; cbn [bind]; [|reflexivity].
  match goal with
  | |- context [AIService.analyzeIssueContent ?c ?r] =>
      destruct (analyzeIssueContent_difficulty c r) as [a [Ha Hd]]; rewrite Ha
  end.
  cbn [bind].
  assert (Hrec : forall d,
            d = {| data_githubId := id;
                   data_title := AIService.gi_title (raw_content i);
                   data_body := AIService.orEmpty (AIService.gi_body (raw_content i));
                   data_state := raw_state i;
                   data_number := raw_number i;
                   data_repository := data_repository d;
                   data_labels := data_labels d;
                   data_difficulty := AIService.a_difficulty a;
                   data_requiredSkills := AIService.a_requiredSkills a;
                   data_createdAt := raw_created_at i;
                   data_updatedAt := raw_updated_at i;
                   data_lastActivity := raw_updated_at i;
                   data_isActive := true;
                   data_popularity := calculatePopularity now i (data_repository d) |} ->
            info_url (data_repository d) = url ->
            recordOf now i d).
  { intros d -> Hu. unfold recordOf.
    cbn [data_githubId data_isActive data_createdAt data_updatedAt
         data_lastActivity data_difficulty data_popularity data_repository] in *.
    rewrite Hu. repeat split; auto; try reflexivity.
    intros ->. discriminate. }
  destruct existing as [doc|]; unfold logUpdate, logCreate; right;
    (split; [reflexivity|]); eexists; eexists;
    (split; [reflexivity|]); (split; [reflexivity|]);
    apply Hrec; reflexivity.
Qed.

Lemma processLoop_log (now : Z) (issues : list (option RawIssue)) :
  forall count log,
    exists written,
      snd (loop now issues count log) = app log written /\
      fst (loop now issues count log)
      = (count + Z.of_nat (length (filter skipped issues))
         + Z.of_nat (length written))%Z /\
      Forall (fun d => exists i, In (Some i) issues /\ recordOf now i d) written.
Proof.
  induction issues as [|issue issues IH]; intros count log;
    unfold loop; cbn [processLoop filter].
  - exists []. cbn [snd fst length]. rewrite app_nil_r.
    split; [reflexivity | split; [lia | constructor]].
  - fold process. fold loop.
    pose proof (processAndStoreIssue_log now log issue) as H.
    destruct (process now log issue) as [log1|].
    + destruct H as [[Hs ->]|[Hs [i [d [-> [-> Hrec]]]]]]; rewrite Hs.
      * destruct (IH (count + 1)%Z log) as [written [H1 [H2 H3]]].
        exists written. rewrite H1, H2. cbn [length].
        split; [reflexivity | split; [lia|]].
        eapply Forall_impl; [|exact H3].
        intros d [i [Hin Hrec]]. exists i. split; [now right | exact Hrec].
      * destruct (IH (count + 1)%Z (app log [d])) as [written [H1 [H2 H3]]].
        exists (d :: written). rewrite H1, H2. cbn [length].
        rewrite <- app_assoc. split; [reflexivity | split; [lia|]].
        constructor.
        -- exists i. split; [now left | exact Hrec].
        -- eapply Forall_impl; [|exact H3].
           intros d' [i' [Hin Hrec']]. exists i'. split; [now right | exact Hrec'].
    + rewrite H. destruct (IH count log) as [written [H1 [H2 H3]]].
      exists written. rewrite H1, H2. split; [reflexivity | split; [reflexivity|]].
      eapply Forall_impl; [|exact H3].
      intros d [i [Hin Hrec]]. exists i. split; [now right | exact Hrec].
Qed.

(** X16.  With a store whose two writing operations succeed (seen as the
    list of records handed to it), [processIssues] only appends to the
    store, and its count is the number of skipped entries plus the number of
    records written.  Every record written comes from an entry of the batch
    that has a non-zero id, is not a pull request and has a
    [repository_url]; the record is active, keeps the entry's dates with
    [lastActivity] equal to [updatedAt], has a difficulty among beginner,
    intermediate and advanced, and carries the popularity of that entry. *)
Theorem processIssues_written (now : Z) (arg : issuesArg)
    (log : list IssueData) :
  let result :=
    processIssues (list IssueData) DocId findOne logUpdate logCreate now arg log in
  exists written,
    snd result = app log written /\
    fst result
    = (Z.of_nat (length (filter skipped (issuesOf arg)))
       + Z.of_nat (length written))%Z /\
    Forall
      (fun d =>
         exists i,
           In (Some i) (issuesOf arg) /\
           raw_id i = Some (data_githubId d) /\
           data_githubId d <> 0%Z /\
           raw_pull_request i = false /\
           raw_repository_url i = Some (info_url (data_repository d)) /\
           data_isActive d = true /\
           data_createdAt d = raw_created_at i /\
           data_updatedAt d = raw_updated_at i /\
           data_lastActivity d = data_updatedAt d /\
           In (data_difficulty d) ["beginner"; "intermediate"; "advanced"] /\
           data_popularity d == calculatePopularity now i (data_repository d))
      written.
Proof.
  unfold processIssues.
  assert (G : forall issues,
            exists written,
              snd (loop now issues 0%Z log) = app log written /\
              fst (loop now issues 0%Z log)
              = (Z.of_nat (length (filter skipped issues))
                 + Z.of_nat (length written))%Z /\
              Forall (fun d => exists i, In (Some i) issues /\ recordOf now i d)
                written).
  { intro issues. destruct (processLoop_log now issues 0%Z log)
      as [written [H1 [H2 H3]]].
    exists written. rewrite H1, H2. split; [reflexivity | split; [lia | exact H3]]. }
  destruct arg as [|issues|[items|]]; cbn [issuesOf]; try apply G.
  exists []. cbn [snd fst length filter]. rewrite app_nil_r.
  split; [reflexivity | split; [reflexivity | constructor]].
Qed.

End WrittenRecords.

(** ** The user model *)

Section UserSkillFacts.

Import UserModel.

Lemma findSkill_lower (skills : list StoredSkill) (a b : string) :
  toLowerCase a = toLowerCase b -> findSkill skills a = findSkill skills b.
Proof.
  intro H. induction skills as [|s skills IH]; cbn [findSkill]; [reflexivity|].
  destruct (stored_name s); [|reflexivity]. now rewrite H, IH.
Qed.

(** The skill that [findSkill] returns is the first entry whose name equals
    the searched one up to case, and the entries before it have names. *)
Lemma findSkill_found (skills : list StoredSkill) (skillName : string)
    (s : StoredSkill) :
  findSkill skills skillName = Ok (Some s) <->
  exists before after name,
    skills = app before (s :: after) /\
    stored_name s = Some name /\
    toLowerCase name = toLowerCase skillName /\
    Forall
      (fun e => exists n, stored_name e = Some n /\
                          toLowerCase n <> toLowerCase skillName)
      before.
Proof.
  induction skills as [|e skills IH]; cbn [findSkill].
  - split; [discriminate|]. intros (before & after & name & H & _).
    destruct before; discriminate.
  - destruct (stored_name e) as [n|] eqn:Hn.
    + destruct (String.eqb_spec (toLowerCase n) (toLowerCase skillName)) as [E|E].
      * split.
        -- intro H. injection H as <-. exists [], skills, n.
           repeat split; auto.
        -- intros (before & after & name & H & Hname & Hl & Hb).
           destruct before as [|e' before]; cbn [app] in H.
           ++ now injection H as <- _.
           ++ injection H as <- _. inversion Hb as [|? ? [n' [Hn' Hne]] _]; subst.
              rewrite Hn in Hn'. injection Hn' as <-. contradiction.
      * rewrite IH. split.
        -- intros (before & after & name & -> & Hname & Hl & Hb).
           exists (e :: before), after, name. repeat split; auto.
           constructor; [now exists n | exact Hb].
        -- intros (before & after & name & H & Hname & Hl & Hb).
           destruct before as [|e' before]; cbn [app] in H.
           ++ injection H as <- _. rewrite Hn in Hname. injection Hname as <-.
              contradiction.
           ++ injection H as <- ->. inversion Hb; subst.
              exists before, after, name. repeat split; auto.
    + split; [discriminate|].
      intros (before & after & name & H & Hname & Hl & Hb).
      destruct before as [|e' before]; cbn [app] in H.
      * injection H as <- _. congruence.
      * injection H as <- _. inversion Hb as [|? ? [n' [Hn' _]] _]; subst.
        congruence.
Qed.

(** X17.  For a skill that the lookup finds, [hasSkill] compares the
    position of its level among beginner, intermediate, advanced, expert with
    the position of the minimum level: the skill's own level is always
    enough, a lower minimum is enough whenever a higher one is, expert is
    reached only by expert, and a minimum level that is not one of the four
    is met by every found skill.  With the default minimum the answer is yes
    exactly when the stored level is one of the four.  [getSkillLevel]
    returns the level of that same skill. *)
Theorem hasSkill_threshold (skills : list StoredSkill) (skillName : string)
    (s : StoredSkill) :
  findSkill skills skillName = Ok (Some s) ->
  getSkillLevel skills skillName = Ok (stored_level s) /\
  hasSkill skills skillName (Some (stored_level s)) = Ok true /\
  (forall low high,
      (indexOf AIService.levels low <= indexOf AIService.levels high)%Z ->
      hasSkill skills skillName (Some high) = Ok true ->
      hasSkill skills skillName (Some low) = Ok true) /\
  (hasSkill skills skillName (Some "expert") = Ok true <->
   stored_level s = "expert") /\
  (forall minLevel,
      ~ In minLevel AIService.levels ->
      hasSkill skills skillName (Some minLevel) = Ok true) /\
  (hasSkill skills skillName None = Ok true <->
   In (stored_level s) AIService.levels).
Proof.
  intro H. unfold getSkillLevel, hasSkill. rewrite H. cbn [bind].
  fold AIService.levels.
  assert (Hb : forall a b : Z, Ok (a <=? b)%Z = Ok true <-> (a <= b)%Z).
  { intros a b. split.
    - intro E. injection E as E. now apply Z.leb_le.
    - intro E. f_equal. now apply Z.leb_le. }
  split; [reflexivity|].
  split; [apply Hb; lia|].
  split; [intros low high Hle Hh; apply Hb; apply Hb in Hh; lia|].
  split; [|split].
  - etransitivity; [apply Hb|].
    change (indexOf AIService.levels "expert") with 3%Z.
    destruct (indexOf_levels_cases (stored_level s))
      as [[E I]|[[E I]|[[E I]|[[E I]|[E I]]]]]; rewrite I; split;
      try lia; intro E'; try exact E; try (rewrite E in E'; discriminate).
    exfalso. apply E. rewrite E'. unfold AIService.levels.
    cbn [In]. auto.
  - intros minLevel Hnot. apply Hb.
    destruct (indexOf_levels_cases minLevel)
      as [[E I]|[[E I]|[[E I]|[[E I]|[E I]]]]];
      try (exfalso; apply Hnot; rewrite E; unfold AIService.levels; cbn [In];
           now auto).
    rewrite I.
    destruct (indexOf_levels_cases (stored_level s))
      as [[E' I']|[[E' I']|[[E' I']|[[E' I']|[E' I']]]]]; rewrite I'; lia.
  - etransitivity; [apply Hb|].
    change (indexOf AIService.levels "beginner") with 0%Z.
    destruct (indexOf_levels_cases (stored_level s))
      as [[E I]|[[E I]|[[E I]|[[E I]|[E I]]]]]; rewrite I; split;
      try lia; try contradiction;
      intros _; rewrite E; unfold AIService.levels; cbn [In]; auto.
Qed.

(** X18.  The lookup of [getSkillLevel] and [hasSkill] ignores the case
    of the searched name.  It throws exactly when an entry without name comes
    before every entry that matches.  When all entries have names and none
    matches, [getSkillLevel] answers beginner although [hasSkill] answers no
    for every minimum level, the default included. *)
Theorem skill_lookup (skills : list StoredSkill) (skillName : string)
    (minLevel : option string) :
  getSkillLevel skills (toLowerCase skillName) = getSkillLevel skills skillName /\
  hasSkill skills (toLowerCase skillName) minLevel
  = hasSkill skills skillName minLevel /\
  (hasSkill skills skillName minLevel = Throw <->
   getSkillLevel skills skillName = Throw) /\
  (getSkillLevel skills skillName = Throw <->
   exists before e after,
     skills = app before (e :: after) /\
     stored_name e = None /\
     Forall
       (fun e => exists n, stored_name e = Some n /\
                           toLowerCase n <> toLowerCase skillName)
       before) /\
  (Forall
     (fun e => exists n, stored_name e = Some n /\
                         toLowerCase n <> toLowerCase skillName)
     skills ->
   getSkillLevel skills skillName = Ok "beginner" /\
   hasSkill skills skillName minLevel = Ok false).
Proof.
  assert (Hl : findSkill skills (toLowerCase skillName)
               = findSkill skills skillName).
  { apply findSkill_lower. apply toLowerCase_idempotent. }
  unfold getSkillLevel, hasSkill. rewrite Hl.
  split; [reflexivity|]. split; [reflexivity|].
  assert (Hthrow : findSkill skills skillName = Throw <->
                   exists before e after,
                     skills = app before (e :: after) /\
                     stored_name e = None /\
                     Forall
                       (fun e => exists n, stored_name e = Some n /\
                                           toLowerCase n <> toLowerCase skillName)
                       before).
  { induction skills as [|e skills IH]; cbn [findSkill].
    - split; [discriminate|]. intros (before & e & after & H & _).
      destruct before; discriminate.
    - destruct (stored_name e) as [n|] eqn:Hn.
      + destruct (String.eqb_spec (toLowerCase n) (toLowerCase skillName))
          as [E|E].
        * split; [discriminate|].
          intros (before & e' & after & H & Hnone & Hb).
          destruct before as [|e0 before]; cbn [app] in H.
          -- injection H as <- _. congruence.
          -- injection H as <- _. inversion Hb as [|? ? [n' [Hn' Hne]] _]; subst.
             rewrite Hn in Hn'. injection Hn' as <-. contradiction.
        * rewrite IH.
          2:{ apply findSkill_lower. apply toLowerCase_idempotent. }
          split.
          -- intros (before & e' & after & -> & Hnone & Hb).
             exists (e :: before), e', after. repeat split; auto.
             constructor; [now exists n | exact Hb].
          -- intros (before & e' & after & H & Hnone & Hb).
             destruct before as [|e0 before]; cbn [app] in H.
             ++ injection H as <- _. congruence.
             ++ injection H as <- ->. inversion Hb; subst.
                exists before, e', after. repeat split; auto.
      + split; [|reflexivity]. intros _. exists [], e, skills.
        repeat split; auto. }
  split; [|split].
  - destruct (findSkill skills skillName) as [[s|]|]; cbn [bind];
      split; intro H; try discriminate; reflexivity.
  - rewrite <- Hthrow.
    destruct (findSkill skills skillName) as [[s|]|]; cbn [bind];
      split; intro H; try discriminate; reflexivity.
  - intro Hall. clear Hl Hthrow.
    assert (Hnone : findSkill skills skillName = Ok None).
    { induction Hall as [|e skills [n [Hn Hne]] _ IH]; cbn [findSkill];
        [reflexivity|].
      rewrite Hn. now destruct (String.eqb_spec (toLowerCase n) (toLowerCase skillName)). }
    rewrite Hnone. cbn [bind]. split; reflexivity.
Qed.

End UserSkillFacts.

Lemma hasSkill_threshold_witness :
  UserModel.findSkill UserExamples.storedSkills "RUST"
  = Ok (Some UserExamples.rustSkill) /\
  UserModel.hasSkill UserExamples.storedSkills "RUST" (Some "guru") = Ok true.
Proof.
  split; [reflexivity|].
  refine (proj1 (proj2 (proj2 (proj2 (proj2
            (hasSkill_threshold UserExamples.storedSkills "RUST"
               UserExamples.rustSkill eq_refl))))) "guru" _).
  intros [H|[H|[H|[H|[]]]]]; discriminate H.
Defined.

(** ** Achievements *)

Section AchievementFacts.

Import Achievements.
Local Open Scope nat_scope.

(** X19.  [generateAchievements] returns at most five achievements, in the
    fixed order Polyglot, Expert, Problem Solver, Open Source Hero, Dedicated
    Contributor and without repetition, all dated with the user's
    [updatedAt].  Each one is present exactly when its condition holds; in
    particular Open Source Hero never comes without Problem Solver. *)
Theorem generateAchievements_order (now : Z) (user : Account) :
  let names := map ach_name (generateAchievements now user) in
  StronglySorted
    (fun a b => (0 <= indexOf achievementNames a < indexOf achievementNames b)%Z)
    names /\
  incl names achievementNames /\
  length names <= 5 /\
  Forall (fun a => ach_earnedAt a = acc_updatedAt user)
    (generateAchievements now user) /\
  (In "Polyglot" names <-> 10 <= length (acc_skills user)) /\
  (In "Expert" names <->
   exists s, In s (acc_skills user) /\ UserModel.stored_level s = "expert") /\
  (In "Problem Solver" names <-> 5 <= length (acc_solvedIssues user)) /\
  (In "Open Source Hero" names <-> 20 <= length (acc_solvedIssues user)) /\
  (In "Dedicated Contributor" names <->
   (30 * 86400000 <= now - acc_createdAt user)%Z) /\
  (In "Open Source Hero" names -> In "Problem Solver" names).
Proof.
  intro names. subst names. unfold generateAchievements.
  assert (Hdays : Qle_bool 30
                    (inject_Z (now - acc_createdAt user) / AIService.msPerDay)
                  = (30 * 86400000 <=? now - acc_createdAt user)%Z).
  { apply Bool.eq_iff_eq_true. rewrite Qle_bool_iff, Z.leb_le.
    generalize (now - acc_createdAt user)%Z. intro z.
    unfold AIService.msPerDay, Qdiv.
    change (/ (1000 * 60 * 60 * 24))%Q with (1 # 86400000)%Q.
    unfold Qle, Qmult, inject_Z. cbn [Qnum Qden]. lia. }
  rewrite Hdays. clear Hdays.
  assert (Hexpert :
            existsb (fun s => String.eqb (UserModel.stored_level s) "expert")
              (acc_skills user) = true <->
            exists s, In s (acc_skills user) /\ UserModel.stored_level s = "expert").
  { rewrite existsb_exists. split; intros [s [Hin Hs]]; exists s; split; auto;
      now apply String.eqb_eq. }
  destruct (existsb _ (acc_skills user)).
  all: destruct (Nat.leb_spec 10 (length (acc_skills user)));
    destruct (Nat.leb_spec 5 (length (acc_solvedIssues user)));
    destruct (Nat.leb_spec 20 (length (acc_solvedIssues user)));
    destruct (Z.leb_spec (30 * 86400000) (now - acc_createdAt user));
    try lia.
  all: cbn [app map ach_name length].
  all: split; [repeat constructor; vm_compute; intuition discriminate|].
  all: split; [intros x Hx; cbn [In] in Hx; unfold achievementNames; cbn [In];
               intuition|].
  all: split; [lia|].
  all: split; [repeat constructor|].
  all: cbn [In].
  all: repeat split; try (intros; lia); try tauto.
  all: try (intros; apply Hexpert; reflexivity).
  all: try (intro Hx; intuition discriminate).
  all: try (intro Hx; apply Hexpert in Hx; discriminate).
Qed.

End AchievementFacts.

(** ** Trending repositories *)

Section TrendingFacts.

Import Trending.
Local Open Scope nat_scope.

Let sameId (repo : TrendingRepo) : TrendingRepo -> bool :=
  fun r => (trending_id r =? trending_id repo)%Z.

Lemma findIndex_range {A} (p : A -> bool) (xs : list A) :
  (-1 <= findIndex p xs < Z.of_nat (length xs))%Z.
Proof.
  induction xs as [|x xs IH]; cbn [findIndex length]; [lia|].
  destruct (p x); [lia|]. destruct (Z.ltb_spec (findIndex p xs) 0); lia.
Qed.

Lemma findIndex_first {A} (p : A -> bool) (before : list A) (x : A)
    (after : list A) :
  p x = true ->
  findIndex p (app before (x :: after)) = Z.of_nat (length before) <->
  existsb p before = false.
Proof.
  intro Hx. induction before as [|y before IH]; cbn [app findIndex existsb length].
  - rewrite Hx. split; reflexivity.
  - destruct (p y); cbn [orb].
    + split; [lia | discriminate].
    + pose proof (findIndex_range p (app before (x :: after))).
      destruct (Z.ltb_spec (findIndex p (app before (x :: after))) 0).
      * split; [lia|]. intro H1. apply IH in H1. lia.
      * rewrite <- IH. lia.
Qed.

Lemma filterFrom_firstOfEachId (all : list TrendingRepo) :
  forall repos seen,
    all = app seen repos ->
    filterFrom
      (fun repo index => (index =? findIndex (sameId repo) all)%Z)
      (Z.of_nat (length seen)) repos
    = firstOfEachId seen repos.
Proof.
  induction repos as [|repo repos IH]; intros seen Hall;
    cbn [filterFrom firstOfEachId]; [reflexivity|].
  assert (Hnext : filterFrom
                    (fun repo index => (index =? findIndex (sameId repo) all)%Z)
                    (Z.of_nat (length seen) + 1)%Z repos
                  = firstOfEachId (app seen [repo]) repos).
  { rewrite <- (IH (app seen [repo])).
    - rewrite length_app. cbn [length]. f_equal. lia.
    - rewrite <- app_assoc. exact Hall. }
  rewrite Hnext. fold (sameId repo).
  assert (Hrepo : sameId repo repo = true) by apply Z.eqb_refl.
  pose proof (findIndex_first (sameId repo) seen repo repos Hrepo) as Hfirst.
  rewrite <- Hall in Hfirst.
  destruct (existsb (sameId repo) seen).
  - destruct (Z.eqb_spec (Z.of_nat (length seen)) (findIndex (sameId repo) all))
      as [E|E]; [|reflexivity].
    symmetry in E. apply Hfirst in E. discriminate.
  - destruct (Z.eqb_spec (Z.of_nat (length seen)) (findIndex (sameId repo) all))
      as [E|E]; [reflexivity|].
    exfalso. apply E. symmetry. now apply Hfirst.
Qed.

Lemma existsb_sameId (repo : TrendingRepo) (seen : list TrendingRepo) :
  existsb (sameId repo) seen = true <->
  In (trending_id repo) (map trending_id seen).
Proof.
  rewrite existsb_exists, in_map_iff. unfold sameId.
  split; intros [r [H1 H2]]; exists r.
  - apply Z.eqb_eq in H2. auto.
  - split; [exact H2 | now apply Z.eqb_eq].
Qed.

Lemma firstOfEachId_In (repos : list TrendingRepo) :
  forall seen r,
    In r (firstOfEachId seen repos) ->
    In r repos /\ ~ In (trending_id r) (map trending_id seen).
Proof.
  induction repos as [|repo repos IH]; intros seen r; cbn [firstOfEachId];
    [intros []|].
  assert (Hrest : In r (firstOfEachId (app seen [repo]) repos) ->
                  In r (repo :: repos) /\
                  ~ In (trending_id r) (map trending_id seen)).
  { intro H. apply IH in H. destruct H as [H1 H2]. split; [now right|].
    intro H3. apply H2. rewrite map_app. apply in_or_app. now left. }
  fold (sameId repo).
  destruct (existsb (sameId repo) seen) eqn:E; [exact Hrest|].
  intros [<-|H]; [|now apply Hrest].
  split; [now left|]. intro H. apply existsb_sameId in H. congruence.
Qed.

Lemma firstOfEachId_NoDup (repos : list TrendingRepo) :
  forall seen, NoDup (map trending_id (firstOfEachId seen repos)).
Proof.
  induction repos as [|repo repos IH]; intro seen; cbn [firstOfEachId map];
    [constructor|].
  destruct (existsb _ seen); [apply IH|].
  cbn [map]. constructor; [|apply IH].
  intro H. apply in_map_iff in H. destruct H as [r [Hid Hr]].
  apply firstOfEachId_In in Hr. destruct Hr as [_ Hr]. apply Hr.
  rewrite map_app. apply in_or_app. right. cbn [map In]. now left.
Qed.

Lemma firstOfEachId_covers (repos : list TrendingRepo) :
  forall seen r,
    In r repos ->
    In (trending_id r) (map trending_id seen) \/
    In (trending_id r) (map trending_id (firstOfEachId seen repos)).
Proof.
  induction repos as [|repo repos IH]; intros seen r; [intros []|].
  cbn [firstOfEachId]. fold (sameId repo).
  intros [->|H].
  - destruct (existsb (sameId r) seen) eqn:E.
    + left. now apply existsb_sameId.
    + right. cbn [map In]. now left.
  - destruct (IH (app seen [repo]) r H) as [H1|H1].
    + rewrite map_app in H1. apply in_app_or in H1. destruct H1 as [H1|H1].
      * now left.
      * cbn [map In] in H1. destruct H1 as [H1|[]].
        destruct (existsb (sameId repo) seen) eqn:E.
        -- left. rewrite <- H1. now apply existsb_sameId.
        -- right. cbn [map In]. now left.
    + right. destruct (existsb (sameId repo) seen); [exact H1|].
      cbn [map In]. now right.
Qed.

Lemma firstOfEachId_distinct (repos : list TrendingRepo) :
  forall seen,
    NoDup (map trending_id repos) ->
    (forall r, In r repos -> ~ In (trending_id r) (map trending_id seen)) ->
    firstOfEachId seen repos = repos.
Proof.
  induction repos as [|repo repos IH]; intros seen Hnd Hseen;
    cbn [firstOfEachId]; [reflexivity|].
  fold (sameId repo). cbn [map] in Hnd. inversion Hnd as [|? ? Hnotin Hnd']; subst.
  destruct (existsb (sameId repo) seen) eqn:E.
  - apply existsb_sameId in E. exfalso. apply (Hseen repo); [now left | exact E].
  - f_equal. apply IH; [exact Hnd'|].
    intros r Hr H. rewrite map_app in H. apply in_app_or in H.
    destruct H as [H|H].
    + apply (Hseen r); [now right | exact H].
    + cbn [map In] in H. destruct H as [H|[]]. apply Hnotin. rewrite H.
      now apply in_map.
Qed.

Lemma firstOfEachId_app (first second : list TrendingRepo) :
  forall seen,
    firstOfEachId seen (app first second)
    = app (firstOfEachId seen first) (firstOfEachId (app seen first) second).
Proof.
  induction first as [|repo first IH]; intro seen; cbn [app firstOfEachId].
  - now rewrite app_nil_r.
  - rewrite IH, <- app_assoc. cbn [app].
    destruct (existsb _ seen); reflexivity.
Qed.

Lemma firstOfEachId_seen (repos : list TrendingRepo) :
  forall seen,
    incl (map trending_id repos) (map trending_id seen) ->
    firstOfEachId seen repos = [].
Proof.
  induction repos as [|repo repos IH]; intros seen Hincl; cbn [firstOfEachId];
    [reflexivity|].
  fold (sameId repo).
  assert (E : existsb (sameId repo) seen = true).
  { apply existsb_sameId. apply Hincl. cbn [map In]. now left. }
  rewrite E. apply IH. intros x Hx. rewrite map_app. apply in_or_app. left.
  apply Hincl. cbn [map In]. now right.
Qed.

Lemma fetchLanguages_In (fetch : option string -> completion (list TrendingRepo))
    (langs : list string) :
  forall allRepos r,
    In r (fetchLanguages fetch langs allRepos) ->
    In r allRepos \/
    exists language repos,
      In language langs /\ fetch (Some language) = Ok repos /\ In r repos.
Proof.
  induction langs as [|language langs IH]; intros allRepos r;
    cbn [fetchLanguages]; [now left|].
  intro H. apply IH in H. destruct H as [H|(l & repos & Hl & Hf & Hr)].
  - destruct (fetch (Some language)) as [repos|] eqn:Hf; [|now left].
    apply in_app_or in H. destruct H as [H|H]; [now left|].
    right. exists language, repos. repeat split; auto. now left.
  - right. exists l, repos. repeat split; auto. now right.
Qed.

Lemma getTrendingRepositories_eq
    (fetch : option string -> completion (list TrendingRepo)) :
  getTrendingRepositories fetch
  = firstn 50
      (firstOfEachId []
         match fetch None with
         | Ok generalRepos => app (fetchLanguages fetch languages []) generalRepos
         | Throw => fetchLanguages fetch languages []
         end).
Proof.
  unfold getTrendingRepositories, filterIndexed. cbv zeta. f_equal.
  apply (filterFrom_firstOfEachId _ _ []). reflexivity.
Qed.

Lemma NoDup_firstn {A} (n : nat) (xs : list A) : NoDup xs -> NoDup (firstn n xs).
Proof.
  intro H. rewrite <- (firstn_skipn n xs) in H.
  now apply NoDup_app_remove_r in H.
Qed.

(** X20.  [getTrendingRepositories] of the aggregation job returns at most
    50 repositories with pairwise different ids, each of them returned by one
    of the seven requests (one per language, one general); a request that
    throws contributes nothing and does not stop the others.  When no more
    than 50 ids were fetched, every fetched id is in the result.  When all
    seven requests return the same list with pairwise different ids, the
    result is the first 50 entries of that list. *)
Theorem getTrendingRepositories_unique
    (fetch : option string -> completion (list TrendingRepo)) :
  let result := getTrendingRepositories fetch in
  NoDup (map trending_id result) /\
  length result <= 50 /\
  (forall r,
      In r result ->
      exists arg repos,
        fetch arg = Ok repos /\ In r repos /\
        (arg = None \/ exists language, arg = Some language /\ In language languages)) /\
  (forall arg repos r,
      (arg = None \/ exists language, arg = Some language /\ In language languages) ->
      fetch arg = Ok repos -> In r repos ->
      In (trending_id r) (map trending_id result) \/ length result = 50) /\
  (forall repos,
      (forall arg, fetch arg = Ok repos) ->
      NoDup (map trending_id repos) ->
      result = firstn 50 repos).
Proof.
  intro result. subst result. rewrite getTrendingRepositories_eq.
  set (allRepos := match fetch None with
                   | Ok generalRepos =>
                       app (fetchLanguages fetch languages []) generalRepos
                   | Throw => fetchLanguages fetch languages []
                   end).
  assert (Hall : forall r,
            In r allRepos <->
            exists arg repos,
              fetch arg = Ok repos /\ In r repos /\
              (arg = None \/
               exists language, arg = Some language /\ In language languages)).
  { intro r. unfold allRepos. split.
    - intro H.
      assert (Hl : In r (fetchLanguages fetch languages []) ->
                   exists arg repos,
                     fetch arg = Ok repos /\ In r repos /\
                     (arg = None \/
                      exists language,
                        arg = Some language /\ In language languages)).
      { intro H1. apply fetchLanguages_In in H1.
        destruct H1 as [[]|(l & repos & Hl & Hf & Hr)].
        exists (Some l), repos. repeat split; auto. right. now exists l. }
      destruct (fetch None) as [general|] eqn:Hg; [|now apply Hl].
      apply in_app_or in H. destruct H as [H|H]; [now apply Hl|].
      exists None, general. repeat split; auto.
    - intros (arg & repos & Hf & Hr & [->|(l & -> & Hl)]).
      + rewrite Hf. apply in_or_app. now right.
      + assert (H : In r (fetchLanguages fetch languages [])).
        { unfold languages in *. cbn [fetchLanguages app].
          cbn [In] in Hl.
          destruct Hl as [<-|[<-|[<-|[<-|[<-|[<-|[]]]]]]]; rewrite Hf;
            repeat match goal with
                   | |- context [match fetch ?a with _ => _ end] =>
                       destruct (fetch a)
                   end;
            repeat (apply in_or_app; first [now right | left]);
            try assumption. }
        destruct (fetch None); [apply in_or_app; now left | exact H]. }
  split; [|split; [|split; [|split]]].
  - rewrite <- firstn_map. apply NoDup_firstn. apply firstOfEachId_NoDup.
  - apply firstn_le_length.
  - intros r Hr. apply Hall.
    assert (H : In r (firstOfEachId [] allRepos)).
    { rewrite <- (firstn_skipn 50). apply in_or_app. now left. }
    now apply firstOfEachId_In in H.
  - intros arg repos r Harg Hf Hr.
    assert (Hin : In r allRepos).
    { apply Hall. exists arg, repos. auto. }
    destruct (firstOfEachId_covers allRepos [] r Hin) as [[]|H].
    destruct (Nat.le_gt_cases (length (firstOfEachId [] allRepos)) 50) as [Hle|Hgt].
    + left. now rewrite firstn_all2.
    + right. rewrite length_firstn. lia.
  - intros repos Hsame Hnd. f_equal.
    assert (E : allRepos = app repos (app repos (app repos (app repos
                  (app repos (app repos repos)))))).
    { unfold allRepos, languages. cbn [fetchLanguages]. rewrite !Hsame.
      cbn [app]. now rewrite <- !app_assoc. }
    rewrite E, firstOfEachId_app.
    rewrite (firstOfEachId_distinct repos [] Hnd) by (intros r _ []).
    rewrite firstOfEachId_seen; [apply app_nil_r|].
    cbn [app]. rewrite !map_app. intros x Hx.
    repeat (apply in_app_or in Hx; destruct Hx as [Hx|Hx]; [exact Hx|]).
    exact Hx.
Qed.

End TrendingFacts.

(** ** Recommendations *)

Section RecommendationFacts.

Import Matching Recommendations.
Local Open Scope Q_scope.

Let before (a b : Match) : Prop := b.(match_score) <= a.(match_score).










End RecommendationFacts.
